(** * Client registry of the WireGuard API server (main.go)

    Shallow embedding of the parts of [main.go] that manage the peer
    registry: the parameter loader [loadWGParams], the two address
    allocators, the existence check [clientExists], the listing
    [listWireGuardClients], [addWireGuardClient], [deleteWireGuardClient],
    [syncWireGuardConf] and the two HTTP handlers that compose them.

    Modelling conventions.
    - Go strings are byte strings; they are modelled as [string] (lists of
      [ascii]).  The regular expressions of the source are translated into
      dedicated matchers that follow Go's RE2 leftmost-first semantics for
      the specific pattern, one byte per character.
    - The two stores are the server configuration file (its text) and the
      client directory, a map from file name to contents; ReadDir order is
      ascending file name.  I/O failures of the stores themselves are not
      modelled; the external commands ([wg genkey], [wg pubkey],
      [wg genpsk], [wg-quick strip], [wg syncconf]) are an explicit
      environment record whose outcomes are arbitrary. *)

From Stdlib Require Import Strings.String Strings.Ascii ZArith.
From Stdlib Require Import Numbers.DecimalString.
From stdpp Require Import base gmap strings list sorting.

Open Scope string_scope.

(** ** Byte-string helpers (Go's [strings] package) *)
Module Str.

Definition nl : ascii := "010"%char.

Definition ceq (a b : ascii) : bool := Ascii.eqb a b.

(** [strings.HasPrefix]: Stdlib's [prefix]. *)
Definition has_prefix (p s : string) : bool := String.prefix p s.

(** [strings.HasSuffix]. *)
Fixpoint has_suffix (suf s : string) : bool :=
  String.eqb s suf ||
  match s with
  | EmptyString => false
  | String _ s' => has_suffix suf s'
  end.

(** [strings.Contains]. *)
Fixpoint contains (sub s : string) : bool :=
  String.prefix sub s ||
  match s with
  | EmptyString => false
  | String _ s' => contains sub s'
  end.

Fixpoint sdrop (n : nat) (s : string) : string :=
  match n, s with
  | O, _ => s
  | S _, EmptyString => EmptyString
  | S k, String _ s' => sdrop k s'
  end.

Fixpoint stake (n : nat) (s : string) : string :=
  match n, s with
  | O, _ => EmptyString
  | S _, EmptyString => EmptyString
  | S k, String c s' => String c (stake k s')
  end.

Fixpoint has_char (c : ascii) (s : string) : bool :=
  match s with
  | EmptyString => false
  | String d s' => ceq d c || has_char c s'
  end.

Fixpoint trim_left (p : ascii -> bool) (s : string) : string :=
  match s with
  | EmptyString => EmptyString
  | String c s' => if p c then trim_left p s' else s
  end.

Fixpoint trim_right (p : ascii -> bool) (s : string) : string :=
  match s with
  | EmptyString => EmptyString
  | String c s' =>
      let r := trim_right p s' in
      if String.eqb r "" && p c then "" else String c r
  end.

(** ASCII white space as recognised by [strings.TrimSpace]
    (the multi-byte Unicode spaces are outside this byte model). *)
Definition is_space (c : ascii) : bool :=
  existsb (ceq c) ["009"; "010"; "011"; "012"; "013"; " "]%char.

Definition trim_space (s : string) : string :=
  trim_right is_space (trim_left is_space s).

(** [strings.Trim(s, cutset)]. *)
Definition trim (s cutset : string) : string :=
  let p c := has_char c cutset in trim_right p (trim_left p s).


(** [strings.Split(s, sep)] for a non-empty separator: cut at the first
    occurrence, again and again. *)
Fixpoint split_aux (fuel : nat) (s sep : string) : list string :=
  match fuel with
  | O => [s]
  | S k =>
      match String.index 0 sep s with
      | None => [s]
      | Some m => stake m s :: split_aux k (sdrop (m + String.length sep) s) sep
      end
  end.

Definition split (s sep : string) : list string := split_aux (S (String.length s)) s sep.

(** [strings.SplitN(s, sep, 2)]. *)
Definition split2 (s sep : string) : list string :=
  match String.index 0 sep s with
  | None => [s]
  | Some m => [stake m s; sdrop (m + String.length sep) s]
  end.

(** [fmt.Sprintf("%d", n)] for a natural number. *)
Definition itoa (n : nat) : string := NilEmpty.string_of_uint (Nat.to_uint n).

End Str.

Import Str.

(** ** Parameters file ([WGParams], [loadWGParams]) *)

Record WGParams := {
  ServerPubIP : string;
  ServerPubNIC : string;
  ServerWGNIC : string;
  ServerWGIPv4 : string;
  ServerWGIPv6 : string;
  ServerPort : string;
  ServerPrivKey : string;
  ServerPubKey : string;
  ClientDNS1 : string;
  ClientDNS2 : string;
  AllowedIPs : string
}.

(** Results of Go functions returning [(T, error)]. *)
Inductive result (A : Type) :=
| Ok (a : A)
| Err (e : string).
Arguments Ok {A} a.
Arguments Err {A} e.

(** [bufio.ScanLines]: lines split at ['\n'], a final ['\r'] dropped, no
    empty token after a final newline.  (The scanner's 64 KiB token limit
    is not modelled.) *)
Definition drop_cr (l : string) : string :=
  if has_suffix "013" l then stake (String.length l - 1) l else l.

Fixpoint scan_lines_go (cur : string) (s : string) : list string :=
  match s with
  | EmptyString => if String.eqb cur "" then [] else [drop_cr cur]
  | String c s' =>
      if ceq c nl then drop_cr cur :: scan_lines_go "" s'
      else scan_lines_go (cur ++ String c "") s'
  end.

Definition scan_lines (s : string) : list string := scan_lines_go "" s.

(** The cutset of [strings.Trim] in [loadWGParams]: double and single quote. *)
Definition quote_cutset : string := String "034"%char "'".

(** The loop body of [loadWGParams]: [SplitN(line, "=", 2)], trimmed key,
    trimmed value with quote characters stripped. *)
Definition parse_param_line (line : string) : option (string * string) :=
  match split2 line "=" with
  | [k; v] => Some (trim_space k, trim (trim_space v) quote_cutset)
  | _ => None
  end.

Definition params_map (txt : string) : gmap string string :=
  fold_left
    (fun m line =>
       match parse_param_line line with
       | Some (k, v) => <[k := v]> m
       | None => m
       end) (scan_lines txt) ∅.

(** Go's map read: the zero value for a missing key. *)
Definition getp (m : gmap string string) (k : string) : string :=
  default "" (m !! k).

Definition params_of (m : gmap string string) : WGParams := {|
  ServerPubIP := getp m "SERVER_PUB_IP";
  ServerPubNIC := getp m "SERVER_PUB_NIC";
  ServerWGNIC := getp m "SERVER_WG_NIC";
  ServerWGIPv4 := getp m "SERVER_WG_IPV4";
  ServerWGIPv6 := getp m "SERVER_WG_IPV6";
  ServerPort := getp m "SERVER_PORT";
  ServerPrivKey := getp m "SERVER_PRIV_KEY";
  ServerPubKey := getp m "SERVER_PUB_KEY";
  ClientDNS1 := getp m "CLIENT_DNS_1";
  ClientDNS2 := getp m "CLIENT_DNS_2";
  AllowedIPs := getp m "ALLOWED_IPS" |}.

(** [loadWGParams]; [None] is a params file that cannot be opened. *)
Definition loadWGParams (file : option string) : result WGParams :=
  match file with
  | None => Err "failed to open params file"
  | Some txt =>
      let p := params_of (params_map txt) in
      if String.eqb (ServerPubIP p) "" || String.eqb (ServerWGNIC p) "" ||
         String.eqb (ServerPubKey p) "" || String.eqb (ServerPort p) "" ||
         String.eqb (ServerWGIPv4 p) ""
      then Err "required WireGuard parameters missing"
      else Ok p
  end.

(** ** The two stores *)

(** The server configuration file [WG_CONFIG_FILE] (its text) and the
    client directory [WIREGUARD_CLIENTS] (regular files by name).  A key
    stands for [filepath.Join(WIREGUARD_CLIENTS, key)]; this is that
    directory's entry [key] only when the key is a plain entry name (see
    [plain_name]), so the theorems about the directory assume plain names
    for the keys of the store and for the file names the code builds. *)
Record store := {
  cfg : string;
  clients : gmap string string
}.



(** ** Address allocators ([getNextAvailableIPv4], [getNextAvailableIPv6]) *)
Module Alloc.

(** The regular-expression atoms that occur in the two allocator patterns:
    a literal byte, or [.] (any byte but a newline). *)
Inductive rx_tok := RxLit (c : ascii) | RxAny.

(** [baseIP] spliced unquoted into the pattern: each [.] is a wildcard.
    (The base is the dotted prefix of the server's IPv4 address; other
    regular-expression metacharacters are not modelled.) *)
Definition rx_unquoted (s : string) : list rx_tok :=
  map (fun c => if ceq c "."%char then RxAny else RxLit c) (list_ascii_of_string s).

(** [regexp.QuoteMeta(s)]: every byte literal. *)
Definition rx_quoted (s : string) : list rx_tok := map RxLit (list_ascii_of_string s).

Fixpoint match_toks (p : list rx_tok) (s : string) : option string :=
  match p, s with
  | [], _ => Some s
  | _ :: _, EmptyString => None
  | RxLit c :: p', String d s' => if ceq c d then match_toks p' s' else None
  | RxAny :: p', String d s' => if ceq d nl then None else match_toks p' s'
  end.

(** Greedy [cls+]: the longest prefix of bytes in [cls]. *)
Fixpoint span (cls : ascii -> bool) (s : string) : string * string :=
  match s with
  | EmptyString => (EmptyString, EmptyString)
  | String c s' =>
      if cls c then let (g, r) := span cls s' in (String c g, r)
      else (EmptyString, s)
  end.

(** [\d] and [[\da-fA-F]]. *)
Definition is_digit (c : ascii) : bool :=
  let n := nat_of_ascii c in Nat.leb 48 n && Nat.leb n 57.
Definition is_hex (c : ascii) : bool :=
  let n := nat_of_ascii c in
  is_digit c || (Nat.leb 65 n && Nat.leb n 70) || (Nat.leb 97 n && Nat.leb n 102).

(** A match of [pre(cls+)] starting exactly here: the group and the rest. *)
Definition match_group (pre : list rx_tok) (cls : ascii -> bool) (s : string)
  : option (string * string) :=
  match match_toks pre s with
  | None => None
  | Some r => let (g, r') := span cls r in
              if String.eqb g "" then None else Some (g, r')
  end.

(** [FindAllStringSubmatch(content, -1)], keeping group 1: leftmost
    matches, each search resuming where the previous match ended. *)
Fixpoint find_all (fuel : nat) (m : string -> option (string * string)) (s : string)
  : list string :=
  match fuel with
  | O => []
  | S k =>
      match m s with
      | Some (g, r) => g :: find_all k m r
      | None => match s with
                | EmptyString => []
                | String _ s' => find_all k m s'
                end
      end
  end.

Definition digit_value (c : ascii) : Z :=
  let n := Z.of_nat (nat_of_ascii c) in
  if is_digit c then (n - 48)%Z
  else if Z.leb 65 n && Z.leb n 70 then (n - 55)%Z else (n - 87)%Z.

Fixpoint digits_value (base acc : Z) (s : string) : Z :=
  match s with
  | EmptyString => acc
  | String c s' => digits_value base (acc * base + digit_value c)%Z s'
  end.

(** [fmt.Sscanf(g, "%d", &x)] / ["%x"] into a fresh [int] (64 bits):
    a value out of range is a scan error that leaves [x] at 0. *)
Definition sscanf_int (base : Z) (g : string) : Z :=
  let v := digits_value base 0 g in
  if Z.leb v (2 ^ 63 - 1)%Z then v else 0%Z.

(** [for i := 2; i <= 254; i++ { if !used[i] ... }] *)
Definition first_free (used : list Z) : option nat :=
  find (fun i => negb (existsb (Z.eqb (Z.of_nat i)) used)) (seq 2 253).

Definition getNextAvailableIPv4 (P : WGParams) (s : store) : result string :=
  match split (ServerWGIPv4 P) "." with
  | [p0; p1; p2; _] =>
      let baseIP := p0 ++ "." ++ p1 ++ "." ++ p2 in
      let pat := (rx_unquoted baseIP ++ [RxLit "."%char])%list in
      let content := cfg s in
      let matches := find_all (S (String.length content))
                       (match_group pat is_digit) content in
      let usedOctets := map (sscanf_int 10) matches in
      match first_free usedOctets with
      | Some i => Ok (baseIP ++ "." ++ itoa i)
      | None => Err "no available IPv4 addresses in the subnet"
      end
  | _ => Err "invalid server IPv4 address format"
  end.

Definition getNextAvailableIPv6 (P : WGParams) (s : store) : result string :=
  if String.eqb (ServerWGIPv6 P) "" then Ok "" else
  match split (ServerWGIPv6 P) "::" with
  | [baseIP; _] =>
      let pat := (rx_quoted baseIP ++ rx_quoted "::")%list in
      let content := cfg s in
      let matches := find_all (S (String.length content))
                       (match_group pat is_hex) content in
      let usedParts := map (sscanf_int 16) matches in
      match first_free usedParts with
      | Some i => Ok (baseIP ++ "::" ++ itoa i)
      | None => Err "no available IPv6 addresses in the subnet"
      end
  | _ => Err "invalid server IPv6 address format"
  end.

End Alloc.

Import Alloc.

Definition nlstr : string := String nl EmptyString.

Definition params_ex : WGParams := {|
  ServerPubIP := "203.0.113.7"; ServerPubNIC := "eth0"; ServerWGNIC := "wg0";
  ServerWGIPv4 := "10.8.0.1"; ServerWGIPv6 := "fd42:42:42::1";
  ServerPort := "51820"; ServerPrivKey := "srvpriv"; ServerPubKey := "srvpub";
  ClientDNS1 := "1.1.1.1"; ClientDNS2 := "1.0.0.1"; AllowedIPs := "0.0.0.0/0,::/0" |}.


(** ** A state-and-error monad over the two stores *)
Module Reg.

Definition M (A : Type) : Type := store -> result A * store.

Definition ret {A} (a : A) : M A := fun s => (Ok a, s).
Definition fail {A} (e : string) : M A := fun s => (Err e, s).
Definition bind {A B} (m : M A) (k : A -> M B) : M B :=
  fun s => match m s with
           | (Ok a, s') => k a s'
           | (Err e, s') => (Err e, s')
           end.

Notation "x <- m ;; k" := (bind m (fun x => k))
  (at level 100, m at next level, right associativity).

Definition read_cfg : M string := fun s => (Ok (cfg s), s).
Definition write_cfg (c : string) : M unit :=
  fun s => (Ok tt, {| cfg := c; clients := clients s |}).
(** [OpenFile(WG_CONFIG_FILE, O_APPEND|O_WRONLY)] then [WriteString]. *)
Definition append_cfg (c : string) : M unit :=
  fun s => (Ok tt, {| cfg := cfg s ++ c; clients := clients s |}).
(** [fileExists(filepath.Join(WIREGUARD_CLIENTS, f))]. *)
Definition file_exists (f : string) : M bool :=
  fun s => (Ok (bool_decide (is_Some (clients s !! f))), s).
Definition write_file (f data : string) : M unit :=
  fun s => (Ok tt, {| cfg := cfg s; clients := <[f := data]> (clients s) |}).
Definition remove_file (f : string) : M unit :=
  fun s => (Ok tt, {| cfg := cfg s; clients := delete f (clients s) |}).

(** Wrap a failing step's error with the caller's message, as
    [fmt.Errorf("...: %v", err)] does. *)
Definition lift {A} (msg : string) (r : result A) : M A :=
  match r with
  | Ok a => ret a
  | Err e => fail (msg ++ e)
  end.

End Reg.

Import Reg.

(** ** External commands

    The outcome of each command the source runs, as a function of its
    input.  Outputs are raw standard output; an error carries the text the
    source puts after the colon of its message (the Go error, and for the
    two sync commands also the captured standard error). *)
Record tools := {
  wg_genkey : result string;
  wg_pubkey : string -> result string;
  wg_genpsk : result string;
  wg_quick_strip : string -> string -> result string;  (* interface, config text *)
  wg_syncconf : string -> string -> result unit         (* interface, stdin *)
}.

Section Registry.

Variable P : WGParams.
Variable T : tools.

Definition unlines (l : list string) : string :=
  fold_right (fun x acc => x ++ nlstr ++ acc) "" l.

Definition header (v : string) : string := "### Client " ++ v.

(** The three file names a logical client name can be stored under. *)
Definition standard_path (name : string) : string :=
  ServerWGNIC P ++ "-client-" ++ name ++ ".conf".
Definition alternative_path (name : string) : string :=
  "wg0-client-" ++ name ++ ".conf".
Definition simple_path (name : string) : string := name ++ ".conf".

(** [clientExists]: [### Client Q$] without the multi-line flag matches
    only at the very end of the text, i.e. a suffix test. *)
Definition clientExists (name : string) : M bool :=
  content <- read_cfg ;;
  if has_suffix (header name) content then ret true else
  if has_suffix (header ("wg0-client-" ++ name)) content then ret true else
  if has_suffix (header (ServerWGNIC P ++ "-client-" ++ name)) content then ret true else
  e1 <- file_exists (standard_path name) ;;
  if e1 then ret true else
  e2 <- file_exists (alternative_path name) ;;
  if e2 then ret true else
  e3 <- file_exists (simple_path name) ;;
  ret e3.

(** [syncWireGuardConf]: [wg-quick strip] reads the configuration file,
    its output is fed to [wg syncconf]. *)
Definition syncWireGuardConf : M unit :=
  content <- read_cfg ;;
  out <- lift "wg-quick strip command failed: " (wg_quick_strip T (ServerWGNIC P) content) ;;
  lift "wg syncconf command failed: " (wg_syncconf T (ServerWGNIC P) out).

Definition trim_out (r : result string) : result string :=
  match r with Ok o => Ok (trim_space o) | Err e => Err e end.

Definition client_bundle (privateKey ipv4 ipv6 preSharedKey endpoint : string) : string :=
  unlines ["[Interface]";
           "PrivateKey = " ++ privateKey;
           "Address = " ++ ipv4 ++ "/32," ++ ipv6 ++ "/128";
           "DNS = " ++ ClientDNS1 P ++ "," ++ ClientDNS2 P;
           "";
           "[Peer]";
           "PublicKey = " ++ ServerPubKey P;
           "PresharedKey = " ++ preSharedKey;
           "Endpoint = " ++ endpoint;
           "AllowedIPs = " ++ AllowedIPs P].

Definition server_block (name publicKey preSharedKey ipv4 ipv6 : string) : string :=
  nlstr ++ unlines [header name;
                    "[Peer]";
                    "PublicKey = " ++ publicKey;
                    "PresharedKey = " ++ preSharedKey;
                    "AllowedIPs = " ++ ipv4 ++ "/32," ++ ipv6 ++ "/128"].

Definition endpoint_of (pubip port : string) : string :=
  let e := if contains ":" pubip && negb (contains "[" pubip)
           then "[" ++ pubip ++ "]" else pubip in
  e ++ ":" ++ port.

(** [addWireGuardClient]. *)
Definition addWireGuardClient (name ipv4 ipv6 : string) : M string :=
  let configPath := standard_path name in
  ex <- file_exists configPath ;;
  if ex then fail ("client configuration file already exists at " ++ configPath) else
  privateKey <- lift "failed to generate private key: " (trim_out (wg_genkey T)) ;;
  publicKey <- lift "failed to derive public key: " (trim_out (wg_pubkey T privateKey)) ;;
  preSharedKey <- lift "failed to generate pre-shared key: " (trim_out (wg_genpsk T)) ;;
  let endpoint := endpoint_of (ServerPubIP P) (ServerPort P) in
  let clientConfig := client_bundle privateKey ipv4 ipv6 preSharedKey endpoint in
  _ <- write_file configPath clientConfig ;;
  _ <- append_cfg (server_block name publicKey preSharedKey ipv4 ipv6) ;;
  r <- (fun s => match syncWireGuardConf s with
                 | (Ok u, s') => (Ok u, s')
                 | (Err e, s') => (Err ("failed to sync WireGuard config: " ++ e), s')
                 end) ;;
  ret clientConfig.

(** *** Block removal: [(?ms)^### Client Q$.*?^$] with [ReplaceAll]

    [bol] says whether the current position is at the beginning of a line
    (start of the text or just after a newline): that is [^] in multi-line
    mode; [at_eol] is [$] (end of the text or before a newline). *)
Definition at_eol (s : string) : bool :=
  match s with
  | EmptyString => true
  | String c _ => ceq c nl
  end.

(** The lazy [.*?^$]: the first position (here or later) where [^$]
    holds; returns the text from there. *)
Fixpoint find_blank (bol : bool) (s : string) : option string :=
  if bol && at_eol s then Some s else
  match s with
  | EmptyString => None
  | String c s' => find_blank (ceq c nl) s'
  end.

(** A match of [^h$.*?^$] starting exactly here: the rest of the text
    after it.  After the header the line-start flag is "the header ends
    with a newline". *)
Definition match_block (h : string) (bol : bool) (s : string) : option string :=
  if bol && has_prefix h s then
    let r := sdrop (String.length h) s in
    if at_eol r then find_blank (has_suffix nlstr h) r else None
  else None.

(** [regexp.Match]: a match starts somewhere. *)
Fixpoint block_matches (h : string) (bol : bool) (s : string) : bool :=
  match match_block h bol s with
  | Some _ => true
  | None => match s with
            | EmptyString => false
            | String c s' => block_matches h (ceq c nl) s'
            end
  end.

(** [regexp.ReplaceAll(content, "")]: successive leftmost matches are cut
    out; the search resumes where a match ended (a line start). *)
Fixpoint del_all_fuel (fuel : nat) (h : string) (bol : bool) (s : string) : string :=
  match fuel with
  | O => s
  | S k =>
      match match_block h bol s with
      | Some r => del_all_fuel k h true r
      | None => match s with
                | EmptyString => EmptyString
                | String c s' => String c (del_all_fuel k h (ceq c nl) s')
                end
      end
  end.

Definition del_all (h s : string) : string := del_all_fuel (S (String.length s)) h true s.

(** [deleteWireGuardClient]. *)
Definition deleteWireGuardClient (name : string) : M unit :=
  content <- read_cfg ;;
  let exact := header name in
  let prefixed := header ("wg0-client-" ++ name) in
  let dynamic := header (ServerWGNIC P ++ "-client-" ++ name) in
  _ <- (if block_matches exact true content then write_cfg (del_all exact content)
        else if block_matches prefixed true content then write_cfg (del_all prefixed content)
        else if block_matches dynamic true content then write_cfg (del_all dynamic content)
        else ret tt) ;;
  let remove_if_exists f :=
    (ex <- file_exists f ;; if ex then remove_file f else ret tt) in
  _ <- remove_if_exists (standard_path name) ;;
  _ <- remove_if_exists (alternative_path name) ;;
  _ <- remove_if_exists (simple_path name) ;;
  fun s => match syncWireGuardConf s with
           | (Ok u, s') => (Ok u, s')
           | (Err e, s') => (Err ("failed to sync WireGuard config: " ++ e), s')
           end.

End Registry.

(** ** Listing ([listWireGuardClients]) and the HTTP handlers *)

Record Client := {
  Name : string;
  IPV4 : string;
  IPV6 : string;
  Config : string
}.

(** [os.ReadDir] lists the directory sorted by file name. *)
Definition name_le (a b : string * string) : Prop := String.le a.1 b.1.
#[global] Instance name_le_dec : RelDecision name_le.
Proof. intros a b. unfold name_le. apply _. Defined.








(** [^[a-zA-Z0-9_-]{1,15}$]. *)
Definition name_char (c : ascii) : bool :=
  let n := nat_of_ascii c in
  (Nat.leb 97 n && Nat.leb n 122) || (Nat.leb 65 n && Nat.leb n 90) ||
  is_digit c || ceq c "_"%char || ceq c "-"%char.

Definition valid_name (name : string) : bool :=
  Nat.leb 1 (String.length name) && Nat.leb (String.length name) 15 &&
  forallb name_char (list_ascii_of_string name).

Definition name_error_msg : string :=
  "Client name must contain only alphanumeric characters, underscores, or dashes and be less than 16 characters".

(** The JSON reply of a handler: HTTP status, message, data. *)
Record response := {
  status : nat;
  message : string;
  data : option Client
}.

Definition reply (code : nat) (msg : string) : response :=
  {| status := code; message := msg; data := None |}.

Definition run {A} (m : M A) (s : store) (k : A -> store -> response * store)
  : response * store :=
  match m s with
  | (Ok a, s') => k a s'
  | (Err e, s') => (reply 500 e, s')
  end.

(** [addUserHandlerGin] after JSON decoding of [AddUserRequest]. *)
Definition addUserHandler (P : WGParams) (T : tools) (name ipv4_req ipv6_req : string)
  (s : store) : response * store :=
  if negb (valid_name name) then (reply 400 name_error_msg, s)
  else
  run (clientExists P name) s (fun exists_ s =>
  if exists_ then (reply 409 "A client with this name already exists", s) else
  run (fun s => (if String.eqb ipv4_req "" then getNextAvailableIPv4 P s else Ok ipv4_req, s)) s
      (fun ipv4 s =>
  run (fun s => if String.eqb ipv6_req "" && negb (String.eqb (ServerWGIPv6 P) "")
                then (getNextAvailableIPv6 P s, s) else (Ok ipv6_req, s)) s
      (fun ipv6 s =>
  run (addWireGuardClient P T name ipv4 ipv6) s (fun clientConfig s =>
  ({| status := 200; message := "Client added successfully";
      data := Some {| Name := name; IPV4 := ipv4; IPV6 := ipv6; Config := clientConfig |} |},
   s))))).

(** [deleteUserHandlerGin] after JSON decoding (no name validation). *)
Definition deleteUserHandler (P : WGParams) (T : tools) (name : string) (s : store)
  : response * store :=
  run (clientExists P name) s (fun exists_ s =>
  if negb exists_ then (reply 404 "Client not found", s) else
  run (deleteWireGuardClient P T name) s (fun _ s =>
  (reply 200 "Client deleted successfully", s))).


(** ** Concrete environments used by the evaluations below *)

(** External commands that all succeed ([wg-quick strip] echoes the
    configuration). *)
Definition tools_ok : tools := {|
  wg_genkey := Ok ("cprivkey" ++ nlstr);
  wg_pubkey := fun _ => Ok ("cpubkey" ++ nlstr);
  wg_genpsk := Ok ("cpsk" ++ nlstr);
  wg_quick_strip := fun _ c => Ok c;
  wg_syncconf := fun _ _ => Ok tt |}.

(** The same, except that [wg syncconf] exits non-zero. *)
Definition tools_sync_fails : tools := {|
  wg_genkey := Ok ("cprivkey" ++ nlstr);
  wg_pubkey := fun _ => Ok ("cpubkey" ++ nlstr);
  wg_genpsk := Ok ("cpsk" ++ nlstr);
  wg_quick_strip := fun _ c => Ok c;
  wg_syncconf := fun _ _ => Err "exit status 1, stderr: Line unrecognized" |}.

Definition store_of (c : string) : store := {| cfg := c; clients := ∅ |}.

(** The configuration of [params_ex] after nine clients received
    [10.8.0.k] and [fd42:42:42::k] for k = 2..10 (the tenth IPv6 address
    as the allocator printed it). *)
Definition cfg_nine : string :=
  unlines (map (fun k => "AllowedIPs = 10.8.0." ++ itoa k ++ "/32,fd42:42:42::" ++ itoa k ++ "/128")
               (seq 2 9)).

(** A server configuration whose only client is a peer block for [alice]
    in the middle of the text. *)
Definition cfg_alice : string :=
  unlines ["[Interface]"; "Address = 10.8.0.1/24"; "";
           "### Client alice"; "[Peer]"; "PublicKey = k"; "PresharedKey = p";
           "AllowedIPs = 10.8.0.2/32,fd42:42:42::2/128"; "";
           "### Client bob"; "[Peer]"; "PublicKey = k2"; "PresharedKey = p2";
           "AllowedIPs = 10.8.0.3/32,fd42:42:42::3/128"].

(** ** Paths under the client directory

    [filepath.Join(WIREGUARD_CLIENTS, f)] cleans [WIREGUARD_CLIENTS/f]
    lexically.  Relative to the directory, [join_rel f] is the number of
    levels the cleaned path climbs above it ([..] with nothing left to
    pop) and the path segments below it. *)
Fixpoint clean_segs (up : nat) (stack : list string) (segs : list string)
  : nat * list string :=
  match segs with
  | [] => (up, rev stack)
  | x :: r =>
      if String.eqb x "" || String.eqb x "." then clean_segs up stack r
      else if String.eqb x ".." then
        match stack with
        | [] => clean_segs (S up) [] r
        | _ :: st => clean_segs up st r
        end
      else clean_segs up (x :: stack) r
  end.

Definition join_rel (f : string) : nat * list string := clean_segs 0 [] (split f "/").

(** The joined path names an entry directly inside the directory. *)
Definition direct_child (f : string) : bool :=
  match join_rel f with
  | (0, [_]) => true
  | _ => false
  end.

(** The candidate bundle file names of a client name, as add, delete and
    the existence check build them. *)
Definition bundle_candidates (P : WGParams) (name : string) : list string :=
  [standard_path P name; alternative_path name; simple_path name].

(** The store an add leaves behind once the bundle is written and the
    peer block appended. *)
Definition after_add_writes (P : WGParams) (s : store)
  (name ipv4 ipv6 privateKey publicKey preSharedKey : string) : store := {|
  cfg := cfg s ++ server_block name publicKey preSharedKey ipv4 ipv6;
  clients := <[standard_path P name :=
                 client_bundle P privateKey ipv4 ipv6 preSharedKey
                   (endpoint_of (ServerPubIP P) (ServerPort P))]> (clients s) |}.

(** ** Lines of the configuration text *)

(** The text up to the first newline, and the rest from that newline. *)
Fixpoint takeline (s : string) : string :=
  match s with
  | EmptyString => EmptyString
  | String c s' => if ceq c nl then EmptyString else String c (takeline s')
  end.

Fixpoint dropline (s : string) : string :=
  match s with
  | EmptyString => EmptyString
  | String c s' => if ceq c nl then s else dropline s'
  end.







(** ** Concrete configurations for the add and delete evaluations *)






(** ** Status handler: client names by public key *)

(** Go's [\s] (Perl class): tab, newline, form feed, carriage return, space. *)
Definition re_space (c : ascii) : bool :=
  ceq c "009"%char || ceq c nl || ceq c "012"%char || ceq c "013"%char || ceq c " "%char.

(** Greedy [\s*]. *)
Fixpoint skip_ws (s : string) : string :=
  match s with
  | EmptyString => EmptyString
  | String c s' => if re_space c then skip_ws s' else s
  end.

(** A match of [(?m)^### Client (.+)$\s*\[Peer\]\s*PublicKey = (.+)$]
    starting here: groups 1 and 2 and the text after the match.  Each
    [(.+)$] takes the rest of the line (at least one byte); a greedy [\s*]
    never has to give back, since the literal after it starts with a
    non-space byte. *)
Definition pk_match (bol : bool) (s : string) : option (string * string * string) :=
  if bol && has_prefix "### Client " s then
    let r1 := sdrop 11 s in
    let name := takeline r1 in
    if String.eqb name "" then None else
    let r2 := skip_ws (dropline r1) in
    if has_prefix "[Peer]" r2 then
      let r3 := skip_ws (sdrop 6 r2) in
      if has_prefix "PublicKey = " r3 then
        let r4 := sdrop 12 r3 in
        let key := takeline r4 in
        if String.eqb key "" then None else Some (name, key, dropline r4)
      else None
    else None
  else None.

(** [FindAllSubmatch(content, -1)]: successive leftmost matches, the
    search resuming where the previous match ended. *)
Fixpoint pk_scan_fuel (fuel : nat) (bol : bool) (s : string) : list (string * string) :=
  match fuel with
  | O => []
  | S k =>
      match pk_match bol s with
      | Some (name, key, rest) => (name, key) :: pk_scan_fuel k false rest
      | None => match s with
                | EmptyString => []
                | String c s' => pk_scan_fuel k (ceq c nl) s'
                end
      end
  end.

Definition pk_scan_from (bol : bool) (s : string) : list (string * string) :=
  pk_scan_fuel (S (String.length s)) bol s.

(** [findClientNameByPublicKey]: the name of the first section whose key
    is [publicKey], or [""]. *)
Definition findClientNameByPublicKey (publicKey : string) (s : store) : string :=
  match find (fun m => String.eqb m.2 publicKey) (pk_scan_from true (cfg s)) with
  | Some m => m.1
  | None => ""
  end.

Definition hash_start (Y : string) : Prop := exists Y', Y = String "#" Y'.

(** ** Process configuration ([getEnv], [loadEnv]) and [authMiddleware] *)

(** [getEnv]: [os.Getenv] yields [""] for an unset variable, so an unset
    and an empty variable both give the fallback.  The environment is the
    one left by [godotenv.Load()]. *)
Definition getEnv (env : string -> string) (key fallback : string) : string :=
  let value := env key in
  if String.eqb value "" then fallback else value.

Record settings := {
  API_PORT : string;
  API_TOKEN : string;
  WG_CONFIG_FILE : string;
  WG_PARAMS_FILE : string;
  WIREGUARD_CLIENTS : string;
  DEBUG_MODE : bool
}.

Definition loadEnv (env : string -> string) : settings := {|
  API_PORT := getEnv env "API_PORT" "8080";
  API_TOKEN := getEnv env "API_TOKEN" "your-secure-api-token";
  WG_CONFIG_FILE := getEnv env "WG_CONFIG_FILE" "/etc/wireguard/wg0.conf";
  WG_PARAMS_FILE := getEnv env "WG_PARAMS_FILE" "/etc/wireguard/params";
  WIREGUARD_CLIENTS := getEnv env "WIREGUARD_CLIENTS" "/home/wireguard/users";
  DEBUG_MODE := String.eqb (getEnv env "DEBUG_MODE" "false") "true" |}.

(** [authMiddleware]: [Some r] aborts the request with [r]; [None] is
    [c.Next()].  [key] is the request's [key] header ([""] when absent). *)
Definition authMiddleware (api_token key : string) : option response :=
  let token := key in
  if String.eqb token "" then Some (reply 401 "Missing API token")
  else if negb (String.eqb token api_token) then Some (reply 401 "Invalid API token")
  else None.

(** ** Service control ([executeCommand] and the start/stop/restart handlers) *)

(** How a command run ends: exit status 0 with its standard output, or
    an error (the Go error text) with both captured outputs. *)
Inductive exec_result :=
| Exited0 (stdout : string)
| ExitErr (err stdout stderr : string).

Definition executeCommand (r : exec_result) : string * string :=
  match r with
  | Exited0 output => ("success", output)
  | ExitErr e output stderr =>
      ("error", "Error: " ++ e ++ nlstr ++ "Stdout: " ++ output ++ nlstr ++ "Stderr: " ++ stderr)
  end.

(** The outcome of [systemctl <verb> <unit>]. *)
Definition systemctl_env := string -> string -> exec_result.

Record svc_response := {
  svc_status : nat;
  svc_message : string;
  svc_data : option string
}.

Definition wireGuardStartHandler (P : WGParams) (systemctl : systemctl_env) : svc_response :=
  let unit_ := "wg-quick@" ++ ServerWGNIC P in
  let '(success, output) := executeCommand (systemctl "start" unit_) in
  if negb (String.eqb success "success") then
    {| svc_status := 500; svc_message := "Failed to start WireGuard service"; svc_data := Some output |}
  else
  let '(success, _) := executeCommand (systemctl "is-active" unit_) in
  if negb (String.eqb success "success") then
    {| svc_status := 500; svc_message := "WireGuard service failed to start properly"; svc_data := Some output |}
  else
    {| svc_status := 200; svc_message := "WireGuard service started successfully"; svc_data := None |}.

Definition wireGuardStopHandler (P : WGParams) (systemctl : systemctl_env) : svc_response :=
  let unit_ := "wg-quick@" ++ ServerWGNIC P in
  let '(success, output) := executeCommand (systemctl "stop" unit_) in
  if negb (String.eqb success "success") then
    {| svc_status := 500; svc_message := "Failed to stop WireGuard service"; svc_data := Some output |}
  else
    {| svc_status := 200; svc_message := "WireGuard service stopped successfully"; svc_data := None |}.

Definition wireGuardRestartHandler (P : WGParams) (systemctl : systemctl_env) : svc_response :=
  let unit_ := "wg-quick@" ++ ServerWGNIC P in
  let '(success, output) := executeCommand (systemctl "restart" unit_) in
  if negb (String.eqb success "success") then
    {| svc_status := 500; svc_message := "Failed to restart WireGuard service"; svc_data := Some output |}
  else
  let '(success, _) := executeCommand (systemctl "is-active" unit_) in
  if negb (String.eqb success "success") then
    {| svc_status := 500; svc_message := "WireGuard service failed to restart properly"; svc_data := Some output |}
  else
    {| svc_status := 200; svc_message := "WireGuard service restarted successfully"; svc_data := None |}.

(** ** The net/http registry of [src/main.go]

    The older [main.go] keeps the same stores, allocators, bundle and peer
    block formats; its existence check tests the exact header only, its
    delete removes the exact-header block and one bundle file, and its add
    does not check for an existing bundle. *)
Module Legacy.

Section LegacyRegistry.

Variable P : WGParams.

Variable T : tools.

(** [clientExists]: [### Client Q$] (no multi-line flag) on the
    configuration text, a suffix test. *)
Definition clientExists (name : string) : M bool :=
  content <- read_cfg ;;
  ret (has_suffix (header name) content).

(** [syncWireGuardConf]: the error of [wg syncconf] is returned as is. *)
Definition syncWireGuardConf : M unit :=
  content <- read_cfg ;;
  out <- lift "wg-quick strip command failed: " (wg_quick_strip T (ServerWGNIC P) content) ;;
  lift "" (wg_syncconf T (ServerWGNIC P) out).

Definition sync_wrapped : M unit :=
  fun s => match syncWireGuardConf s with
           | (Ok u, s') => (Ok u, s')
           | (Err e, s') => (Err ("failed to sync WireGuard config: " ++ e), s')
           end.

Definition addWireGuardClient (name ipv4 ipv6 : string) : M string :=
  privateKey <- lift "failed to generate private key: " (trim_out (wg_genkey T)) ;;
  publicKey <- lift "failed to derive public key: " (trim_out (wg_pubkey T privateKey)) ;;
  preSharedKey <- lift "failed to generate pre-shared key: " (trim_out (wg_genpsk T)) ;;
  let endpoint := endpoint_of (ServerPubIP P) (ServerPort P) in
  let clientConfig := client_bundle P privateKey ipv4 ipv6 preSharedKey endpoint in
  _ <- write_file (standard_path P name) clientConfig ;;
  _ <- append_cfg (server_block name publicKey preSharedKey ipv4 ipv6) ;;
  _ <- sync_wrapped ;;
  ret clientConfig.

(** [deleteWireGuardClient]: the text is written back whether or not a
    block matched; [os.Remove] of a missing file is ignored. *)
Definition deleteWireGuardClient (name : string) : M unit :=
  content <- read_cfg ;;
  _ <- write_cfg (del_all (header name) content) ;;
  _ <- remove_file (standard_path P name) ;;
  sync_wrapped.

End LegacyRegistry.

(** [addUserHandler] after the method check and JSON decoding. *)
Definition addUserHandler (P : WGParams) (T : tools) (name ipv4_req ipv6_req : string)
  (s : store) : response * store :=
  if negb (valid_name name) then (reply 400 name_error_msg, s)
  else
  run (clientExists name) s (fun exists_ s =>
  if exists_ then (reply 409 "A client with this name already exists", s) else
  run (fun s => (if String.eqb ipv4_req "" then Alloc.getNextAvailableIPv4 P s else Ok ipv4_req, s)) s
      (fun ipv4 s =>
  run (fun s => if String.eqb ipv6_req "" && negb (String.eqb (ServerWGIPv6 P) "")
                then (Alloc.getNextAvailableIPv6 P s, s) else (Ok ipv6_req, s)) s
      (fun ipv6 s =>
  run (addWireGuardClient P T name ipv4 ipv6) s (fun clientConfig s =>
  ({| status := 200; message := "Client added successfully";
      data := Some {| Name := name; IPV4 := ipv4; IPV6 := ipv6; Config := clientConfig |} |},
   s))))).

(** [deleteUserHandler] after the method check and JSON decoding. *)
Definition deleteUserHandler (P : WGParams) (T : tools) (name : string) (s : store)
  : response * store :=
  run (clientExists name) s (fun exists_ s =>
  if negb exists_ then (reply 404 "Client not found", s) else
  run (deleteWireGuardClient P T name) s (fun _ s =>
  (reply 200 "Client deleted successfully", s))).

End Legacy.

(** [strings.TrimSuffix]. *)
Definition trim_suffix (s suf : string) : string :=
  if has_suffix suf s then stake (String.length s - String.length suf) s else s.

(** [[a-zA-Z0-9+/=]], the base64 alphabet of the keys. *)
Definition b64_char (c : ascii) : bool :=
  let n := nat_of_ascii c in
  (Nat.leb 97 n && Nat.leb n 122) || (Nat.leb 65 n && Nat.leb n 90) ||
  Alloc.is_digit c || ceq c "+"%char || ceq c "/"%char || ceq c "="%char.

(** [[^,]]: any byte but a comma, newline included. *)
Definition not_comma (c : ascii) : bool := negb (ceq c ","%char).

Definition lit_peer : string := nlstr ++ "[Peer]" ++ nlstr ++ "PublicKey = ".

Definition lit_psk : string := nlstr ++ "PresharedKey = ".

Definition lit_allowed : string := nlstr ++ "AllowedIPs = ".

(** A match of
    [(?m)^### Client ([a-zA-Z0-9_-]+)$\n\[Peer\]\nPublicKey = ([a-zA-Z0-9+/=]+)\nPresharedKey = ([a-zA-Z0-9+/=]+)\nAllowedIPs = ([^,]+),(.+)$]
    starting here: the five groups and the text after the match.  Each
    greedy class run is followed by a byte outside its class, so no
    backtracking can produce another match: a class run is the longest
    one, [(.+)$] is the rest of the line. *)
Definition list_match (bol : bool) (s : string)
  : option (string * string * string * string * string * string) :=
  if bol && has_prefix "### Client " s then
    let '(g1, r1) := Alloc.span name_char (sdrop 11 s) in
    if String.eqb g1 "" || negb (at_eol r1) || negb (has_prefix lit_peer r1) then None else
    let '(g2, r2) := Alloc.span b64_char (sdrop (String.length lit_peer) r1) in
    if String.eqb g2 "" || negb (has_prefix lit_psk r2) then None else
    let '(g3, r3) := Alloc.span b64_char (sdrop (String.length lit_psk) r2) in
    if String.eqb g3 "" || negb (has_prefix lit_allowed r3) then None else
    let '(g4, r4) := Alloc.span not_comma (sdrop (String.length lit_allowed) r3) in
    if String.eqb g4 "" || negb (has_prefix "," r4) then None else
    let r5 := sdrop 1 r4 in
    let g5 := takeline r5 in
    if String.eqb g5 "" then None else Some (g1, g2, g3, g4, g5, dropline r5)
  else None.

(** [FindAllStringSubmatch(content, -1)]. *)
Fixpoint list_scan_fuel (fuel : nat) (bol : bool) (s : string)
  : list (string * string * string * string * string) :=
  match fuel with
  | O => []
  | S k =>
      match list_match bol s with
      | Some (g1, g2, g3, g4, g5, rest) => (g1, g2, g3, g4, g5) :: list_scan_fuel k false rest
      | None => match s with
                | EmptyString => []
                | String c s' => list_scan_fuel k (ceq c nl) s'
                end
      end
  end.

Definition list_scan_from (bol : bool) (s : string) :=
  list_scan_fuel (S (String.length s)) bol s.

(** [listWireGuardClients] of [main.go]. *)
Definition legacy_listWireGuardClients (P : WGParams) : M (list Client) :=
  content <- read_cfg ;;
  fun s =>
    (Ok (map (fun '(g1, _, _, g4, g5) =>
                {| Name := g1; IPV4 := trim_suffix g4 "/32"; IPV6 := trim_suffix g5 "/128";
                   Config := match clients s !! standard_path P g1 with
                             | Some d => d
                             | None => ""
                             end |})
             (list_scan_from true content)), s).

(** No line of the text starts with ["### Client "]. *)
Fixpoint header_free (bol : bool) (s : string) : bool :=
  negb (bol && has_prefix "### Client " s) &&
  match s with
  | EmptyString => true
  | String c s' => header_free (ceq c nl) s'
  end.

(** One peer block as [addWireGuardClient] appends it. *)
Record peer_entry := {
  pe_name : string;
  pe_pub : string;
  pe_psk : string;
  pe_ipv4 : string;
  pe_ipv6 : string
}.

Definition entry_block (e : peer_entry) : string :=
  server_block (pe_name e) (pe_pub e) (pe_psk e) (pe_ipv4 e) (pe_ipv6 e).

Definition blocks (l : list peer_entry) : string :=
  fold_right (fun e acc => entry_block e ++ acc) "" l.

Definition entry_ok (e : peer_entry) : Prop :=
  valid_name (pe_name e) = true /\
  pe_pub e <> "" /\ forallb b64_char (list_ascii_of_string (pe_pub e)) = true /\
  pe_psk e <> "" /\ forallb b64_char (list_ascii_of_string (pe_psk e)) = true /\
  has_char ","%char (pe_ipv4 e) = false /\ has_char nl (pe_ipv6 e) = false.

(** The unit the service handlers control. *)
Definition svc_unit (P : WGParams) : string := "wg-quick@" ++ ServerWGNIC P.


(** Sample inputs for the properties below. *)
Definition sc_ex : systemctl_env :=
  fun verb _ => if String.eqb verb "is-active" then ExitErr "exit status 3" "failed" ""
                else Exited0 "".

Definition legacy_add_ex : response * store :=
  Legacy.addUserHandler params_ex tools_ok "carol" "10.8.0.3" "fd42:42:42::3" (store_of "").

Definition entry_carol : peer_entry :=
  {| pe_name := "carol"; pe_pub := "cpubkey"; pe_psk := "cpsk";
     pe_ipv4 := "10.8.0.3"; pe_ipv6 := "fd42:42:42::3" |}.

Definition cfg_iface_only : string := unlines ["[Interface]"; "Address = 10.8.0.1/24"].

Definition legacy_add_iface : response * store :=
  Legacy.addUserHandler params_ex tools_ok "carol" "10.8.0.3" "fd42:42:42::3" (store_of cfg_iface_only).

Definition client_carol : Client :=
  {| Name := "carol"; IPV4 := "10.8.0.3"; IPV6 := "fd42:42:42::3";
     Config := client_bundle params_ex "cprivkey" "10.8.0.3" "fd42:42:42::3" "cpsk"
                 (endpoint_of (ServerPubIP params_ex) (ServerPort params_ex)) |}.

(** ** Status handler: the [peers] entry *)

(** [unicode.IsSpace] of the rune that starts here, as the number of its
    UTF-8 bytes ([0]: no space starts here).  The spaces are the ASCII
    [\t \n \v \f \r] and blank, U+0085, U+00A0, U+1680, U+2000..U+200A,
    U+2028, U+2029, U+202F, U+205F and U+3000.  None of their bytes is a
    UTF-8 continuation byte at a rune start, so testing every byte
    position gives the rune-by-rune result. *)
Definition space_len (s : string) : nat :=
  match s with
  | EmptyString => 0
  | String c r =>
      let n := nat_of_ascii c in
      if (Nat.leb 9 n && Nat.leb n 13) || Nat.eqb n 32 then 1
      else if Nat.eqb n 194 then
        match r with
        | String d _ => if Nat.eqb (nat_of_ascii d) 133 || Nat.eqb (nat_of_ascii d) 160 then 2 else 0
        | EmptyString => 0
        end
      else if Nat.eqb n 225 then
        match r with
        | String d (String e _) =>
            if Nat.eqb (nat_of_ascii d) 154 && Nat.eqb (nat_of_ascii e) 128 then 3 else 0
        | _ => 0
        end
      else if Nat.eqb n 226 then
        match r with
        | String d (String e _) =>
            let d := nat_of_ascii d in let e := nat_of_ascii e in
            if (Nat.eqb d 128 && ((Nat.leb 128 e && Nat.leb e 138) ||
                                  Nat.eqb e 168 || Nat.eqb e 169 || Nat.eqb e 175))
               || (Nat.eqb d 129 && Nat.eqb e 159) then 3 else 0
        | _ => 0
        end
      else if Nat.eqb n 227 then
        match r with
        | String d (String e _) =>
            if Nat.eqb (nat_of_ascii d) 128 && Nat.eqb (nat_of_ascii e) 128 then 3 else 0
        | _ => 0
        end
      else 0
  end.

(** The longest prefix in which no space starts, and the rest. *)
Fixpoint word (s : string) : string * string :=
  match s with
  | EmptyString => ("", "")
  | String c r =>
      if Nat.eqb (space_len s) 0 then let '(w, t) := word r in (String c w, t) else ("", s)
  end.

(** [strings.Fields]. *)
Fixpoint fields_fuel (fuel : nat) (s : string) : list string :=
  match fuel with
  | O => []
  | S f =>
      match s with
      | EmptyString => []
      | String _ _ =>
          match space_len s with
          | O => let '(w, t) := word s in w :: fields_fuel f t
          | k => fields_fuel f (sdrop k s)
          end
      end
  end.

Definition fields (s : string) : list string := fields_fuel (S (String.length s)) s.

(** One element of [peers] in [wireGuardStatusHandlerGin]: the five
    fields always set, [transfer_rx]/[transfer_tx] when the line has seven
    fields, and [client_name] when the enrichment loop adds it. *)
Record peer := {
  public_key : string;
  preshared_key : string;
  endpoint : string;
  allowed_ips : string;
  latest_handshake : string;
  transfer : option (string * string);
  client_name : option string
}.

Definition peer_of_fields (fs : list string) : option peer :=
  match fs with
  | f0 :: f1 :: f2 :: f3 :: f4 :: rest =>
      Some {| public_key := f0; preshared_key := f1; endpoint := f2; allowed_ips := f3;
              latest_handshake := f4;
              transfer := match rest with f5 :: f6 :: _ => Some (f5, f6) | _ => None end;
              client_name := None |}
  | _ => None
  end.

(** The loop over [strings.Split(statsOutput, "\n")]. *)
Fixpoint collect_peers (lines : list string) : list peer :=
  match lines with
  | [] => []
  | line :: rest =>
      if String.eqb line "" then collect_peers rest else
      match peer_of_fields (fields line) with
      | Some p => p :: collect_peers rest
      | None => collect_peers rest
      end
  end.

Definition parse_peers (stats : exec_result) : list peer :=
  let '(statsSuccess, statsOutput) := executeCommand stats in
  if String.eqb statsSuccess "success" && negb (String.eqb statsOutput "") then
    collect_peers (split statsOutput nlstr)
  else [].

(** The enrichment loop: [client_name] is added when
    [findClientNameByPublicKey] finds a name. *)
Definition name_peer (s : store) (p : peer) : peer :=
  let publicKey := public_key p in
  if String.eqb publicKey "" then p else
  let clientName := findClientNameByPublicKey publicKey s in
  if String.eqb clientName "" then p
  else {| public_key := public_key p; preshared_key := preshared_key p; endpoint := endpoint p;
          allowed_ips := allowed_ips p; latest_handshake := latest_handshake p;
          transfer := transfer p; client_name := Some clientName |}.

(** The [peers] entry of the status response, from the result of
    [wg show <nic> dump] and the configuration store. *)
Definition status_peers (stats : exec_result) (s : store) : list peer :=
  map (name_peer s) (parse_peers stats).

(** A peer line of [wg show <nic> dump]. *)
Record dump_peer := {
  d_pub : string; d_psk : string; d_endpoint : string; d_allowed : string;
  d_handshake : string; d_rx : string; d_tx : string; d_keepalive : string
}.

Definition tabstr : string := String "009"%char EmptyString.

Definition dump_line (d : dump_peer) : string :=
  String.concat tabstr [d_pub d; d_psk d; d_endpoint d; d_allowed d; d_handshake d;
                        d_rx d; d_tx d; d_keepalive d].

(** A non-empty field of printable ASCII bytes (no blank). *)
Definition vis_word (w : string) : bool :=
  negb (String.eqb w "") &&
  forallb (fun c => Nat.leb 33 (nat_of_ascii c) && Nat.leb (nat_of_ascii c) 126) (list_ascii_of_string w).

Definition dump_ok (d : dump_peer) : bool :=
  forallb vis_word [d_pub d; d_psk d; d_endpoint d; d_allowed d; d_handshake d;
                    d_rx d; d_tx d; d_keepalive d].

Definition dump_carol : dump_peer :=
  {| d_pub := "cpubkey"; d_psk := "cpsk"; d_endpoint := "(none)";
     d_allowed := "10.8.0.3/32,fd42:42:42::3/128"; d_handshake := "0"; d_rx := "0"; d_tx := "0";
     d_keepalive := "off" |}.

Definition store_carol : store :=
  snd (addWireGuardClient params_ex tools_ok "carol" "10.8.0.3" "fd42:42:42::3" (store_of cfg_alice)).

(** * Theorems *)

(** ** Address allocators *)

(** C1 (code_bug). [getNextAvailableIPv4] splices the base [10.8.0]
    into its pattern without [regexp.QuoteMeta], so each dot matches any
    byte: the text below has no occurrence of [10.8.0.<octet>], hence the
    used-octet set is empty and the claim requires [10.8.0.2], but the
    look-alike [10x8x0.2] marks octet 2 as used and the allocator answers
    [10.8.0.3]. *)
Theorem ipv4_alloc_unquoted_base :
  let s := store_of ("# mirror 10x8x0.2" ++ nlstr) in
  contains "10.8.0." (cfg s) = false /\
  getNextAvailableIPv4 params_ex s = Ok "10.8.0.3".
Proof. vm_compute. split; reflexivity. Qed.

(** C6 (code_bug). [getNextAvailableIPv6] reads the host parts as
    hexadecimal ([%x]) but prints the chosen number in decimal ([%d]).
    With [::2] .. [::9] in use it hands out [::10]; once [::10] is in the
    text it is read as 16, and the next allocation hands out [::10] again,
    an address that already occurs in the text. *)
Theorem ipv6_alloc_reissues_address :
  let before := store_of (unlines (map (fun k => "AllowedIPs = 10.8.0." ++ itoa k ++
                            "/32,fd42:42:42::" ++ itoa k ++ "/128") (seq 2 8))) in
  let after := store_of cfg_nine in
  getNextAvailableIPv6 params_ex before = Ok "fd42:42:42::10" /\
  contains "fd42:42:42::10/128" (cfg after) = true /\
  getNextAvailableIPv6 params_ex after = Ok "fd42:42:42::10".
Proof. vm_compute. repeat split; reflexivity. Qed.

(** ** Existence check *)

(** C5 (code_bug). [clientExists] tests [### Client Q$] without the
    multi-line flag (the delete path uses [(?ms)^...$]), so [$] only
    matches at the very end of the file: a peer block [### Client alice]
    followed by its stanza is not seen, and with no bundle file the
    client is reported absent; deleting it answers 404. *)
Theorem clientExists_misses_block_header :
  contains (nlstr ++ header "alice" ++ nlstr) cfg_alice = true /\
  fst (clientExists params_ex "alice" (store_of cfg_alice)) = Ok false /\
  status (fst (deleteUserHandler params_ex tools_ok "alice" (store_of cfg_alice))) = 404.
Proof. vm_compute. repeat split; reflexivity. Qed.

(** ** Name validation *)

Lemma run_status_not_400 {A} (m : M A) (s : store) k :
  (forall a s', status (fst (k a s')) <> 400) -> status (fst (run m s k)) <> 400.
Proof.
  intros Hk. unfold run. destruct (m s) as [[a|e] s']; [apply Hk | simpl; lia].
Qed.

(** C7. The add handler answers 400 (validation error) exactly for the
    names that fail [^[a-zA-Z0-9_-]{1,15}$]; such a request is answered
    without looking at either store and leaves both unchanged.  On the
    spec's examples: [ok_name-1] passes, [bad name], [toolongname1234567]
    and the empty name fail. *)
Theorem addUser_name_validation :
  valid_name "ok_name-1" = true /\ valid_name "bad name" = false /\
  valid_name "toolongname1234567" = false /\ valid_name "" = false /\
  (forall P T name ipv4 ipv6 s,
     status (fst (addUserHandler P T name ipv4 ipv6 s)) = 400 <-> valid_name name = false) /\
  (forall P T name ipv4 ipv6 s,
     valid_name name = false ->
     addUserHandler P T name ipv4 ipv6 s = (reply 400 name_error_msg, s)).
Proof.
  split; [reflexivity|]. split; [reflexivity|].
  split; [reflexivity|]. split; [reflexivity|].
  split.
  - intros P T name ipv4 ipv6 s. unfold addUserHandler.
    destruct (valid_name name) eqn:Hv; simpl; [|split; reflexivity].
    split; [|discriminate]. intros H; exfalso; revert H.
    apply run_status_not_400. intros ex s1.
    destruct ex; [simpl; lia|].
    apply run_status_not_400. intros ip4 s2.
    apply run_status_not_400. intros ip6 s3.
    apply run_status_not_400. intros cc s4. simpl. lia.
  - intros P T name ipv4 ipv6 s Hv. unfold addUserHandler. rewrite Hv. reflexivity.
Qed.

(** ** Partial effects of a failed add *)

Lemma syncWireGuardConf_store P T s : snd (syncWireGuardConf P T s) = s.
Proof.
  unfold syncWireGuardConf, bind, read_cfg, lift; simpl.
  destruct (wg_quick_strip T _ _); simpl; [|reflexivity].
  destruct (wg_syncconf T _ _); reflexivity.
Qed.

(** C8. When the sync step at the end of [addWireGuardClient] fails, the
    bundle already written to the client directory and the peer block
    already appended to the configuration stay exactly as written, and the
    operation returns the sync step's error. *)
Theorem addWireGuardClient_sync_failure_keeps_writes :
  forall P T name ipv4 ipv6 s privateKey publicKey preSharedKey e,
    clients s !! standard_path P name = None ->
    trim_out (wg_genkey T) = Ok privateKey ->
    trim_out (wg_pubkey T privateKey) = Ok publicKey ->
    trim_out (wg_genpsk T) = Ok preSharedKey ->
    fst (syncWireGuardConf P T
           (after_add_writes P s name ipv4 ipv6 privateKey publicKey preSharedKey)) = Err e ->
    addWireGuardClient P T name ipv4 ipv6 s =
      (Err ("failed to sync WireGuard config: " ++ e),
       after_add_writes P s name ipv4 ipv6 privateKey publicKey preSharedKey).
Proof.
  intros P T name ipv4 ipv6 s priv pub psk e Hfile Hk Hp Hpsk Hsync.
  unfold addWireGuardClient, bind at 1, file_exists. rewrite Hfile. simpl.
  unfold bind at 1, lift at 1. rewrite Hk. simpl.
  unfold bind at 1, lift at 1. rewrite Hp. simpl.
  unfold bind at 1, lift at 1. rewrite Hpsk. simpl.
  pose proof (syncWireGuardConf_store P T
                (after_add_writes P s name ipv4 ipv6 priv pub psk)) as Hst.
  unfold after_add_writes in *.
  destruct (syncWireGuardConf P T _) as [r s'] eqn:Hs. simpl in Hsync, Hst.
  subst r s'. unfold bind, write_file, append_cfg. simpl. rewrite Hs. reflexivity.
Qed.

Lemma addWireGuardClient_sync_failure_keeps_writes_witness :
  (∅ : gmap string string) !! standard_path params_ex "alice" = None /\
  trim_out (wg_genkey tools_sync_fails) = Ok "cprivkey" /\
  trim_out (wg_pubkey tools_sync_fails "cprivkey") = Ok "cpubkey" /\
  trim_out (wg_genpsk tools_sync_fails) = Ok "cpsk" /\
  fst (syncWireGuardConf params_ex tools_sync_fails
         (after_add_writes params_ex (store_of "") "alice" "10.8.0.2" "fd42:42:42::2"
            "cprivkey" "cpubkey" "cpsk"))
    = Err "wg syncconf command failed: exit status 1, stderr: Line unrecognized" /\
  addWireGuardClient params_ex tools_sync_fails "alice" "10.8.0.2" "fd42:42:42::2" (store_of "") =
    (Err ("failed to sync WireGuard config: " ++
          "wg syncconf command failed: exit status 1, stderr: Line unrecognized"),
     after_add_writes params_ex (store_of "") "alice" "10.8.0.2" "fd42:42:42::2"
       "cprivkey" "cpubkey" "cpsk").
Proof.
  split; [reflexivity|]. split; [vm_compute; reflexivity|].
  split; [vm_compute; reflexivity|]. split; [vm_compute; reflexivity|].
  split; [vm_compute; reflexivity|].
  apply addWireGuardClient_sync_failure_keeps_writes;
    [reflexivity | vm_compute; reflexivity .. ].
Defined.

(** ** Parameters loader *)

Lemma index_eq_char_none (c : ascii) (l : string) :
  has_char c l = false -> String.index 0 (String c EmptyString) l = None.
Proof.
  induction l as [|d l IH]; simpl; [reflexivity|].
  intros H. apply orb_false_iff in H as [Hd Hl].
  unfold String.prefix.
  destruct (ascii_dec c d) as [->|Hne].
  - unfold ceq in Hd. rewrite Ascii.eqb_refl in Hd. discriminate.
  - rewrite (IH Hl). reflexivity.
Qed.

Lemma index_eq_char_app (c : ascii) (k v : string) :
  has_char c k = false ->
  String.index 0 (String c EmptyString) (k ++ String c v) = Some (String.length k).
Proof.
  induction k as [|d k IH]; simpl; intros H.
  - unfold String.prefix. destruct (ascii_dec c c) as [_|Hn]; [destruct v; reflexivity|congruence].
  - apply orb_false_iff in H as [Hd Hk].
    unfold String.prefix.
    destruct (ascii_dec c d) as [->|Hne].
    + unfold ceq in Hd. rewrite Ascii.eqb_refl in Hd. discriminate.
    + rewrite (IH Hk). reflexivity.
Qed.

Lemma stake_app (k w : string) : stake (String.length k) (k ++ w) = k.
Proof. induction k as [|d k IH]; simpl; [reflexivity|]. by rewrite IH. Qed.

Lemma sdrop_app (k w : string) : sdrop (String.length k) (k ++ w) = w.
Proof. induction k as [|d k IH]; simpl; [reflexivity|]. exact IH. Qed.

Lemma sdrop_app_succ (k : string) (c : ascii) (v : string) :
  sdrop (String.length k + 1) (k ++ String c v) = v.
Proof. induction k as [|d k IH]; simpl; [reflexivity|]. exact IH. Qed.

(** C9. [loadWGParams]: a line without ['='] contributes nothing; a line
    [k=v] (first ['='] splitting) binds the trimmed key to the trimmed
    value with surrounding quote characters stripped; the loader fails
    exactly when one of the five required fields (public IP, VPN
    interface, server public key, port, IPv4 address) is empty after
    parsing, and on success those five fields are non-empty. *)
Theorem loadWGParams_required_fields :
  (forall line, has_char "="%char line = false -> parse_param_line line = None) /\
  (forall k v, has_char "="%char k = false ->
     parse_param_line (k ++ "=" ++ v) = Some (trim_space k, trim (trim_space v) quote_cutset)) /\
  (forall txt,
     let m := params_map txt in
     ((exists e, loadWGParams (Some txt) = Err e) <->
        getp m "SERVER_PUB_IP" = "" \/ getp m "SERVER_WG_NIC" = "" \/
        getp m "SERVER_PUB_KEY" = "" \/ getp m "SERVER_PORT" = "" \/
        getp m "SERVER_WG_IPV4" = "") /\
     (forall p, loadWGParams (Some txt) = Ok p ->
        ServerPubIP p <> "" /\ ServerWGNIC p <> "" /\ ServerPubKey p <> "" /\
        ServerPort p <> "" /\ ServerWGIPv4 p <> "")).
Proof.
  split; [|split].
  - intros line H. unfold parse_param_line, split2.
    rewrite (index_eq_char_none "="%char line H). reflexivity.
  - intros k v H. unfold parse_param_line, split2.
    change ("=" ++ v) with (String "="%char v).
    rewrite (index_eq_char_app "="%char k v H), stake_app, sdrop_app_succ. reflexivity.
  - intros txt m. unfold loadWGParams. fold m. simpl.
    destruct (String.eqb_spec (getp m "SERVER_PUB_IP") "") as [H1|H1];
    destruct (String.eqb_spec (getp m "SERVER_WG_NIC") "") as [H2|H2];
    destruct (String.eqb_spec (getp m "SERVER_PUB_KEY") "") as [H3|H3];
    destruct (String.eqb_spec (getp m "SERVER_PORT") "") as [H4|H4];
    destruct (String.eqb_spec (getp m "SERVER_WG_IPV4") "") as [H5|H5]; simpl;
    (split; [split; [intros [e He] | intros Hd] | intros p Hp]);
    try discriminate; try tauto; try (eexists; reflexivity);
    injection Hp as <-; simpl; tauto.
Qed.

(** ** Bundle paths *)

Lemma slength_app (a b : string) : String.length (a ++ b) = String.length a + String.length b.
Proof. induction a as [|c a IH]; simpl; [reflexivity|]. by rewrite IH. Qed.

Lemma sapp_cons (d : ascii) (a b : string) : String d a ++ b = String d (a ++ b).
Proof. reflexivity. Qed.

Lemma sapp_nil (a : string) : "" ++ a = a.
Proof. reflexivity. Qed.

Lemma sapp_assoc (a b c : string) : (a ++ b) ++ c = a ++ (b ++ c).
Proof. induction a as [|d a IH]; [reflexivity|]. rewrite !sapp_cons. by rewrite IH. Qed.

Lemma has_char_app (c : ascii) (a b : string) :
  has_char c (a ++ b) = has_char c a || has_char c b.
Proof. induction a as [|d a IH]; [reflexivity|]. rewrite sapp_cons. simpl. rewrite IH. apply orb_assoc. Qed.

Lemma valid_name_no_char (c : ascii) (name : string) :
  name_char c = false -> valid_name name = true -> has_char c name = false.
Proof.
  intros Hc Hv. unfold valid_name in Hv.
  apply andb_true_iff in Hv as [_ Hall].
  induction name as [|d name IH]; simpl in *; [reflexivity|].
  apply andb_true_iff in Hall as [Hd Hall].
  rewrite (IH Hall), orb_false_r. unfold ceq.
  destruct (Ascii.eqb_spec d c) as [->|]; [congruence|reflexivity].
Qed.

Lemma join_rel_plain (f : string) :
  has_char "/"%char f = false -> 5 <= String.length f -> join_rel f = (0, [f]).
Proof.
  intros Hs Hl. unfold join_rel, split, split_aux.
  rewrite (index_eq_char_none "/"%char f Hs). simpl.
  destruct (String.eqb_spec f "") as [->|_]; [simpl in Hl; lia|].
  destruct (String.eqb_spec f ".") as [->|_]; [simpl in Hl; lia|].
  destruct (String.eqb_spec f "..") as [->|_]; [simpl in Hl; lia|].
  reflexivity.
Qed.

(** C10 (as corrected).  For a name accepted by [^[a-zA-Z0-9_-]{1,15}$]
    and a configured interface name without ['/'], the name contains no
    ['/'] and no ['.'], and each of the three bundle file names built by
    add, delete and the existence check joins to an entry directly inside
    the client directory. *)
Theorem bundle_paths_direct_children :
  forall P name,
    valid_name name = true ->
    has_char "/"%char (ServerWGNIC P) = false ->
    has_char "/"%char name = false /\ has_char "."%char name = false /\
    (forall f, In f (bundle_candidates P name) ->
       join_rel f = (0, [f]) /\ direct_child f = true).
Proof.
  intros P name Hv Hi.
  assert (Hs : has_char "/"%char name = false) by (apply valid_name_no_char; [reflexivity|exact Hv]).
  assert (Hd : has_char "."%char name = false) by (apply valid_name_no_char; [reflexivity|exact Hv]).
  split; [exact Hs|]. split; [exact Hd|].
  intros f Hf.
  assert (Hj : join_rel f = (0, [f])).
  { apply join_rel_plain;
    simpl in Hf; destruct Hf as [<-|[<-|[<-|[]]]];
    unfold standard_path, alternative_path, simple_path;
    rewrite ?has_char_app, ?slength_app, ?Hs, ?Hi; simpl; try lia; reflexivity. }
  split; [exact Hj|]. unfold direct_child. rewrite Hj. reflexivity.
Qed.

Lemma bundle_paths_direct_children_witness :
  valid_name "alice" = true /\ has_char "/"%char (ServerWGNIC params_ex) = false /\
  has_char "/"%char "alice" = false /\ has_char "."%char "alice" = false /\
  (forall f, In f (bundle_candidates params_ex "alice") ->
     join_rel f = (0, [f]) /\ direct_child f = true).
Proof.
  split; [reflexivity|]. split; [reflexivity|].
  apply bundle_paths_direct_children; reflexivity.
Defined.

(** C10 counterexample: the interface name comes from the parameters file
    unchecked; with [SERVER_WG_NIC=../etc] the interface-prefixed bundle
    of the accepted name [alice] is joined one level above the client
    directory. *)
Lemma bundle_path_escapes_with_interface :
  let P := {| ServerPubIP := "203.0.113.7"; ServerPubNIC := "eth0"; ServerWGNIC := "../etc";
              ServerWGIPv4 := "10.8.0.1"; ServerWGIPv6 := ""; ServerPort := "51820";
              ServerPrivKey := "k"; ServerPubKey := "K"; ClientDNS1 := "1.1.1.1";
              ClientDNS2 := "1.0.0.1"; AllowedIPs := "0.0.0.0/0" |} in
  valid_name "alice" = true /\
  loadWGParams (Some ("SERVER_PUB_IP=203.0.113.7" ++ nlstr ++ "SERVER_WG_NIC=../etc" ++ nlstr ++
                      "SERVER_PUB_KEY=K" ++ nlstr ++ "SERVER_PORT=51820" ++ nlstr ++
                      "SERVER_WG_IPV4=10.8.0.1" ++ nlstr)) <> Err "required WireGuard parameters missing" /\
  join_rel (standard_path P "alice") = (1, ["etc-client-alice.conf"]) /\
  direct_child (standard_path P "alice") = false.
Proof. vm_compute. split; [reflexivity|]. split; [discriminate|]. split; reflexivity. Qed.

(** ** Removal of peer blocks ([ReplaceAll] of the block pattern) *)


Lemma ceq_true (a b : ascii) : ceq a b = true <-> a = b.
Proof. unfold ceq. apply Ascii.eqb_eq. Qed.

Lemma ceq_refl (a : ascii) : ceq a a = true.
Proof. apply ceq_true. reflexivity. Qed.

Lemma prefix_split (h s : string) :
  has_prefix h s = true -> s = h ++ sdrop (String.length h) s.
Proof.
  unfold has_prefix. revert s; induction h as [|a h IH]; intros s Hp; [reflexivity|].
  destruct s as [|c s]; [discriminate|]. unfold String.prefix in Hp; fold String.prefix in Hp.
  destruct (ascii_dec a c) as [->|]; [|discriminate].
  rewrite sapp_cons. simpl. f_equal. apply IH. exact Hp.
Qed.







Lemma takeline_no_nl (s : string) : has_char nl (takeline s) = false.
Proof.
  induction s as [|c s IH]; [reflexivity|]. simpl.
  destruct (ceq c nl) eqn:E; [reflexivity|]. simpl. rewrite E, IH. reflexivity.
Qed.










Lemma takeline_app (X Y : string) :
  has_char nl X = false -> at_eol Y = true ->
  takeline (X ++ Y) = X /\ dropline (X ++ Y) = Y.
Proof.
  intros HX HY. induction X as [|c X IH].
  - destruct Y as [|d Y]; [split; reflexivity|]. simpl in HY |- *. rewrite HY. split; reflexivity.

  - simpl in HX. apply orb_false_iff in HX as [Hc HX]. rewrite sapp_cons. simpl.
    rewrite Hc. destruct (IH HX) as [-> ->]. split; reflexivity.
Qed.

Lemma takeline_app_nl (X Y : string) : takeline (X ++ String nl Y) = takeline X.
Proof.
  induction X as [|c X IH]; [reflexivity|]. rewrite sapp_cons. simpl.
  destruct (ceq c nl); [reflexivity|]. rewrite IH. reflexivity.
Qed.


Lemma has_suffix_app (suf u r : string) :
  has_suffix suf r = true -> has_suffix suf (u ++ r) = true.
Proof.
  intros H. induction u as [|c u IH]; [exact H|]. rewrite sapp_cons. simpl.
  rewrite IH. apply orb_true_r.
Qed.















Lemma sync_wrapped_store P T (s : store) :
  snd (match syncWireGuardConf P T s with
       | (Ok u, s') => (Ok u, s')
       | (Err e, s') => (Err ("failed to sync WireGuard config: " ++ e), s')
       end) = s.
Proof.
  pose proof (syncWireGuardConf_store P T s) as H.
  destruct (syncWireGuardConf P T s) as [[u|e] s']; exact H.
Qed.














Lemma addWireGuardClient_store P T name ipv4 ipv6 s privateKey publicKey preSharedKey :
  clients s !! standard_path P name = None ->
  trim_out (wg_genkey T) = Ok privateKey ->
  trim_out (wg_pubkey T privateKey) = Ok publicKey ->
  trim_out (wg_genpsk T) = Ok preSharedKey ->
  snd (addWireGuardClient P T name ipv4 ipv6 s) =
  after_add_writes P s name ipv4 ipv6 privateKey publicKey preSharedKey.
Proof.
  intros Hfile Hk Hp Hpsk.
  unfold addWireGuardClient, bind at 1, file_exists. rewrite Hfile. simpl.
  unfold bind at 1, lift at 1. rewrite Hk. simpl.
  unfold bind at 1, lift at 1. rewrite Hp. simpl.
  unfold bind at 1, lift at 1. rewrite Hpsk. simpl.
  unfold bind at 1, write_file. simpl. unfold bind at 1, append_cfg. simpl.
  unfold bind at 1. rewrite <- (sync_wrapped_store P T).
  destruct (syncWireGuardConf P T _) as [[u|e] s']; reflexivity.
Qed.



Lemma prefix_app (p x : string) : has_prefix p (p ++ x) = true.
Proof.
  unfold has_prefix. induction p as [|a p IH]; [destruct x; reflexivity|].
  rewrite sapp_cons. unfold String.prefix; fold String.prefix.
  destruct (ascii_dec a a); [exact IH|congruence].
Qed.

Lemma has_suffix_refl (s : string) : has_suffix s s = true.
Proof. destruct s; cbn [has_suffix]; rewrite String.eqb_refl; reflexivity. Qed.




















(** ** Further properties of the handlers and helpers *)


Lemma skip_ws_len (s : string) : String.length (skip_ws s) <= String.length s.
Proof. induction s as [|c s IH]; simpl; [lia|]. destruct (re_space c); simpl; lia. Qed.

Lemma dropline_len (s : string) : String.length (dropline s) <= String.length s.
Proof. induction s as [|c s IH]; simpl; [lia|]. destruct (ceq c nl); simpl; lia. Qed.

Lemma sdrop_len (n : nat) (s : string) : String.length (sdrop n s) = String.length s - n.
Proof. revert s; induction n as [|n IH]; intros [|c s]; simpl; try reflexivity; try lia. apply IH. Qed.

Lemma prefix_len (p s : string) : has_prefix p s = true -> String.length p <= String.length s.
Proof. intros H. rewrite (prefix_split p s H), slength_app. lia. Qed.

Lemma pk_match_shorter (bol : bool) (s n k r : string) :
  pk_match bol s = Some (n, k, r) -> String.length r < String.length s.
Proof.
  unfold pk_match. destruct (bol && has_prefix "### Client " s) eqn:E; [|discriminate].
  apply andb_true_iff in E as [_ E]. apply prefix_len in E. simpl in E.
  destruct (String.eqb _ "") ; [discriminate|].
  destruct (has_prefix "[Peer]" _); [|discriminate].
  destruct (has_prefix "PublicKey = " _); [|discriminate].
  destruct (String.eqb _ ""); [discriminate|]. intros H; injection H as _ _ <-.
  pose proof (dropline_len (sdrop 12 (skip_ws (sdrop 6 (skip_ws (dropline (sdrop 11 s))))))) as L1.
  pose proof (skip_ws_len (sdrop 6 (skip_ws (dropline (sdrop 11 s))))) as L2.
  pose proof (skip_ws_len (dropline (sdrop 11 s))) as L3.
  pose proof (dropline_len (sdrop 11 s)) as L4.
  rewrite !sdrop_len in L1, L2, L4. change (String.length (dropline (sdrop 12 (skip_ws (sdrop 6 (skip_ws (dropline (sdrop 11 s))))))) < String.length s). lia.
Qed.

Lemma pk_fuel_enough (n m : nat) (bol : bool) (s : string) :
  String.length s < n -> String.length s < m ->
  pk_scan_fuel n bol s = pk_scan_fuel m bol s.
Proof.
  revert m bol s; induction n as [|n IH]; intros m bol s Hn Hm; [lia|].
  destruct m as [|m]; [lia|]. simpl.
  destruct (pk_match bol s) as [[[a b] r]|] eqn:E.
  - pose proof (pk_match_shorter _ _ _ _ _ E). f_equal. apply IH; lia.
  - destruct s as [|c s]; [reflexivity|]. simpl in Hn, Hm. apply IH; lia.
Qed.

Lemma pk_scan_from_eq (bol : bool) (s : string) :
  pk_scan_from bol s =
  match pk_match bol s with
  | Some (name, key, rest) => (name, key) :: pk_scan_from false rest
  | None => match s with
            | EmptyString => []
            | String c s' => pk_scan_from (ceq c nl) s'
            end
  end.
Proof.
  unfold pk_scan_from at 1. cbn [pk_scan_fuel].
  destruct (pk_match bol s) as [[[a b] r]|] eqn:E.
  - pose proof (pk_match_shorter _ _ _ _ _ E). f_equal. apply pk_fuel_enough; simpl; lia.
  - destruct s as [|c s]; [reflexivity|]. apply pk_fuel_enough; simpl in *; lia.
Qed.

Lemma prefix_app_nl (p X Y : string) :
  has_char nl p = false -> has_prefix p (X ++ String nl Y) = has_prefix p X.
Proof.
  unfold has_prefix. revert X; induction p as [|a p IH]; intros X Hp.
  - destruct X; reflexivity.
  - simpl in Hp. apply orb_false_iff in Hp as [Ha Hp].
    destruct X as [|c X].
    + simpl. destruct (ascii_dec a nl) as [->|]; [|reflexivity].
      rewrite ceq_refl in Ha. discriminate.
    + rewrite sapp_cons. simpl. destruct (ascii_dec a c); [apply IH; exact Hp|reflexivity].
Qed.

Lemma sdrop_app_le (n : nat) (X Z : string) :
  n <= String.length X -> sdrop n (X ++ Z) = sdrop n X ++ Z.
Proof.
  revert X; induction n as [|n IH]; intros X H; [reflexivity|].
  destruct X as [|c X]; simpl in H; [lia|]. simpl. apply IH. lia.
Qed.

Lemma dropline_app_nl (X Y : string) : dropline (X ++ String nl Y) = dropline X ++ String nl Y.
Proof.
  induction X as [|c X IH]; simpl; [reflexivity|].
  destruct (ceq c nl); [reflexivity|exact IH].
Qed.

Lemma skip_ws_app (X W : string) :
  skip_ws (X ++ W) = if String.eqb (skip_ws X) "" then skip_ws W else skip_ws X ++ W.
Proof.
  induction X as [|c X IH]; [reflexivity|]. rewrite sapp_cons. simpl.
  destruct (re_space c); [exact IH|reflexivity].
Qed.

Lemma skip_ws_hash (Y : string) : hash_start Y -> skip_ws (String nl Y) = Y.
Proof. intros [Y' ->]. reflexivity. Qed.

Lemma pk_match_ext (bol : bool) (X Y : string) :
  hash_start Y ->
  pk_match bol (X ++ String nl Y) =
  match pk_match bol X with
  | Some (n, k, r) => Some (n, k, r ++ String nl Y)
  | None => None
  end.
Proof.
  intros HY. unfold pk_match.
  rewrite (prefix_app_nl "### Client ") by reflexivity.
  destruct (bol && has_prefix "### Client " X) eqn:E; [|reflexivity].
  apply andb_true_iff in E as [_ E]. apply prefix_len in E. simpl in E.
  rewrite sdrop_app_le by (simpl; lia).
  rewrite takeline_app_nl. destruct (String.eqb (takeline (sdrop 11 X)) ""); [reflexivity|].
  rewrite dropline_app_nl, skip_ws_app.
  destruct (String.eqb (skip_ws (dropline (sdrop 11 X))) "") eqn:E1.
  { apply String.eqb_eq in E1. rewrite E1, (skip_ws_hash _ HY).
    destruct HY as [Y' ->]. reflexivity. }
  rewrite (prefix_app_nl "[Peer]") by reflexivity.
  destruct (has_prefix "[Peer]" (skip_ws (dropline (sdrop 11 X)))) eqn:E2; [|reflexivity].
  apply prefix_len in E2. simpl in E2.
  rewrite sdrop_app_le by (simpl; lia).
  rewrite skip_ws_app.
  destruct (String.eqb (skip_ws (sdrop 6 (skip_ws (dropline (sdrop 11 X))))) "") eqn:E3.
  { apply String.eqb_eq in E3. rewrite E3, (skip_ws_hash _ HY).
    destruct HY as [Y' ->]. reflexivity. }
  rewrite (prefix_app_nl "PublicKey = ") by reflexivity.
  destruct (has_prefix "PublicKey = " _) eqn:E4; [|reflexivity].
  apply prefix_len in E4. simpl in E4.
  rewrite sdrop_app_le by (simpl; lia).
  rewrite takeline_app_nl, dropline_app_nl.
  destruct (String.eqb (takeline _) ""); reflexivity.
Qed.

Lemma pk_match_nl (bol : bool) (Y : string) : pk_match bol (String nl Y) = None.
Proof. unfold pk_match. destruct bol; reflexivity. Qed.

Lemma pk_scan_app (X Y : string) (bol : bool) :
  hash_start Y ->
  pk_scan_from bol (X ++ String nl Y) = (pk_scan_from bol X ++ pk_scan_from true Y)%list.
Proof.
  intros HY.
  remember (String.length X) as n eqn:Hn.
  revert bol X Hn. induction n as [n IH] using lt_wf_ind. intros bol X Hn.
  rewrite (pk_scan_from_eq bol (X ++ _)), (pk_scan_from_eq bol X).
  rewrite (pk_match_ext _ _ _ HY).
  destruct (pk_match bol X) as [[[a b] r]|] eqn:E.
  - pose proof (pk_match_shorter _ _ _ _ _ E). simpl. f_equal.
    apply (IH (String.length r)); [lia|reflexivity].
  - destruct X as [|c X].
    + destruct bol; reflexivity.
    + rewrite sapp_cons. apply (IH (String.length X)); [simpl in Hn; lia|reflexivity].
Qed.

Lemma pk_match_groups (bol : bool) (s n k r : string) :
  pk_match bol s = Some (n, k, r) ->
  n <> "" /\ has_char nl n = false /\ k <> "" /\ has_char nl k = false.
Proof.
  unfold pk_match. destruct (bol && has_prefix "### Client " s); [|discriminate].
  set (t1 := takeline (sdrop 11 s)).
  destruct (String.eqb t1 "") eqn:E1; [discriminate|].
  destruct (has_prefix "[Peer]" _); [|discriminate].
  destruct (has_prefix "PublicKey = " _); [|discriminate].
  match goal with |- context [String.eqb (takeline ?t) ""] =>
    set (t2 := takeline t); destruct (String.eqb t2 "") eqn:E2 end; [discriminate|].
  intros H; injection H as H1 H2 _. rewrite <- H1, <- H2.
  split; [intros Ha; rewrite Ha in E1; discriminate|].
  split; [apply takeline_no_nl|].
  split; [intros Ha; rewrite Ha in E2; discriminate|apply takeline_no_nl].
Qed.

Lemma pk_scan_names (bol : bool) (s n k : string) :
  In (n, k) (pk_scan_from bol s) -> n <> "".
Proof.
  unfold pk_scan_from. generalize (S (String.length s)) as f.
  intros f; revert bol s; induction f as [|f IH]; intros bol s H; [destruct H|].
  simpl in H. destruct (pk_match bol s) as [[[a b] r]|] eqn:E.
  - destruct H as [H|H]; [|exact (IH _ _ H)]. injection H as <- <-.
    apply (pk_match_groups _ _ _ _ _ E).
  - destruct s as [|c s]; [destruct H|]. exact (IH _ _ H).
Qed.

Lemma find_app {A} (f : A -> bool) (l1 l2 : list A) :
  find f (l1 ++ l2)%list = match find f l1 with Some x => Some x | None => find f l2 end.
Proof. induction l1 as [|x l1 IH]; simpl; [reflexivity|]. destruct (f x); [reflexivity|exact IH]. Qed.

Lemma sdrop_lit (n : nat) (k w : string) : String.length k = n -> sdrop n (k ++ w) = w.
Proof. intros <-. apply sdrop_app. Qed.

Lemma pk_match_block (name pub W : string) :
  has_char nl name = false -> name <> "" -> has_char nl pub = false -> pub <> "" ->
  pk_match true (header name ++ nlstr ++ "[Peer]" ++ nlstr ++ ("PublicKey = " ++ pub) ++ nlstr ++ W) =
  Some (name, pub, nlstr ++ W).
Proof.
  intros Hn Hn' Hp Hp'. unfold pk_match, header.
  rewrite sapp_assoc, prefix_app. simpl andb.
  rewrite (sdrop_lit 11 "### Client ") by reflexivity.
  destruct (takeline_app name (nlstr ++ "[Peer]" ++ nlstr ++ ("PublicKey = " ++ pub) ++ nlstr ++ W) Hn
              eq_refl) as [-> ->].
  destruct (String.eqb_spec name "") as [|_]; [contradiction|].
  change (skip_ws (nlstr ++ "[Peer]" ++ nlstr ++ ("PublicKey = " ++ pub) ++ nlstr ++ W))
    with ("[Peer]" ++ nlstr ++ ("PublicKey = " ++ pub) ++ nlstr ++ W).
  rewrite prefix_app. rewrite (sdrop_lit 6 "[Peer]") by reflexivity.
  change (skip_ws (nlstr ++ ("PublicKey = " ++ pub) ++ nlstr ++ W))
    with (("PublicKey = " ++ pub) ++ nlstr ++ W).
  rewrite sapp_assoc, prefix_app. rewrite (sdrop_lit 12 "PublicKey = ") by reflexivity.
  destruct (takeline_app pub (nlstr ++ W) Hp eq_refl) as [-> ->].
  destruct (String.eqb_spec pub "") as [|_]; [contradiction|]. reflexivity.
Qed.

(** X1. [findClientNameByPublicKey] after a successful
    [addWireGuardClient] of a valid name whose public key is non-empty and
    has no newline: if the key was already found before the add, the same
    name is found afterwards; otherwise the added name is found. *)
Theorem findClientName_after_add P T name ipv4 ipv6 s privateKey publicKey preSharedKey :
  valid_name name = true -> publicKey <> "" -> has_char nl publicKey = false ->
  clients s !! standard_path P name = None ->
  trim_out (wg_genkey T) = Ok privateKey ->
  trim_out (wg_pubkey T privateKey) = Ok publicKey ->
  trim_out (wg_genpsk T) = Ok preSharedKey ->
  findClientNameByPublicKey publicKey (snd (addWireGuardClient P T name ipv4 ipv6 s)) =
  let before := findClientNameByPublicKey publicKey s in
  if String.eqb before "" then name else before.
Proof.
  intros Hv Hp' Hp Hf Hk Hpub Hpsk.
  assert (Hn : has_char nl name = false) by (apply valid_name_no_char; [reflexivity|exact Hv]).
  assert (Hn' : name <> "") by (intros ->; discriminate Hv).
  rewrite (addWireGuardClient_store P T name ipv4 ipv6 s privateKey publicKey preSharedKey Hf Hk Hpub Hpsk).
  unfold findClientNameByPublicKey, after_add_writes, server_block. cbn [cfg].
  set (W := unlines ["PresharedKey = " ++ preSharedKey; "AllowedIPs = " ++ ipv4 ++ "/32," ++ ipv6 ++ "/128"]).
  change (unlines [header name; "[Peer]"; "PublicKey = " ++ publicKey; "PresharedKey = " ++ preSharedKey;
                   "AllowedIPs = " ++ ipv4 ++ "/32," ++ ipv6 ++ "/128"])
    with (header name ++ nlstr ++ "[Peer]" ++ nlstr ++ ("PublicKey = " ++ publicKey) ++ nlstr ++ W).
  change (nlstr ++ ?Y) with (String nl Y).
  rewrite pk_scan_app by (eexists; reflexivity).
  rewrite find_app.
  destruct (find _ (pk_scan_from true (cfg s))) as [m|] eqn:E.
  - destruct m as [a b]. apply find_some in E as [E _]. simpl.
    destruct (String.eqb_spec a "") as [Ha|]; [|reflexivity].
    exfalso. exact (pk_scan_names _ _ _ _ E Ha).
  - rewrite pk_scan_from_eq, pk_match_block by assumption.
    simpl. rewrite String.eqb_refl. reflexivity.
Qed.


Lemma has_suffix_empty (h : string) : has_suffix h "" = String.eqb "" h.
Proof. cbn [has_suffix]. apply orb_false_r. Qed.

Lemma has_suffix_ends_nl (h u : string) :
  has_suffix h (u ++ nlstr) = true -> h = "" \/ has_char nl h = true.
Proof.
  induction u as [|c u IH]; intros H.
  - destruct h as [|a h]; [left; reflexivity|right].
    cbn [has_suffix] in H. apply orb_true_iff in H as [H|H].
    + apply String.eqb_eq in H. injection H as <- _. reflexivity.
    + simpl in H. discriminate.
  - rewrite sapp_cons in H. cbn [has_suffix] in H. apply orb_true_iff in H as [H|H]; [|exact (IH H)].
    apply String.eqb_eq in H. subst h. right. cbn [has_char]. rewrite has_char_app. cbn [has_char nlstr].
    rewrite ceq_refl, !orb_true_r. reflexivity.
Qed.

Lemma header_no_suffix (name X : string) :
  has_char nl name = false -> (X = "" \/ exists u, X = u ++ nlstr) ->
  has_suffix (header name) X = false.
Proof.
  intros Hn HX. destruct (has_suffix (header name) X) eqn:E; [|reflexivity]. exfalso.
  destruct HX as [->|[u ->]].
  - rewrite has_suffix_empty in E. discriminate.
  - apply has_suffix_ends_nl in E as [E|E]; [discriminate|].
    unfold header in E. rewrite has_char_app, Hn in E. discriminate.
Qed.

Lemma legacy_delete_absent P T name s :
  has_suffix (header name) (cfg s) = false ->
  Legacy.deleteUserHandler P T name s = (reply 404 "Client not found", s).
Proof.
  intros H. unfold Legacy.deleteUserHandler, run, Legacy.clientExists, bind, read_cfg, ret.
  rewrite H. reflexivity.
Qed.

Lemma run_status_ne {A} (m : M A) (s : store) k (c : nat) :
  c <> 500 -> (forall a s', status (fst (k a s')) <> c) -> status (fst (run m s k)) <> c.
Proof.
  intros Hc Hk. unfold run. destruct (m s) as [[a|e] s']; [apply Hk | simpl; lia].
Qed.

Lemma legacy_add_not_409 P T name ipv4 ipv6 s :
  has_suffix (header name) (cfg s) = false ->
  status (fst (Legacy.addUserHandler P T name ipv4 ipv6 s)) <> 409.
Proof.
  intros H. unfold Legacy.addUserHandler.
  destruct (negb (valid_name name)); [simpl; lia|].
  unfold run at 1, Legacy.clientExists, bind at 1, read_cfg, ret at 1. rewrite H.
  apply run_status_ne; [lia|intros a s1].
  apply run_status_ne; [lia|intros b s2].
  apply run_status_ne; [lia|intros c s3]. simpl. lia.
Qed.

Lemma unlines_ends_nl (x : string) (l : list string) : exists u, unlines (x :: l) = u ++ nlstr.
Proof.
  revert x; induction l as [|y l IH]; intros x.
  - exists x. reflexivity.
  - destruct (IH y) as [u Hu]. exists (x ++ nlstr ++ u). unfold unlines in *. simpl.
    simpl in Hu. rewrite Hu, !sapp_assoc. reflexivity.
Qed.

Lemma server_block_ends_nl (X name pub psk ipv4 ipv6 : string) :
  exists u, X ++ server_block name pub psk ipv4 ipv6 = u ++ nlstr.
Proof.
  unfold server_block. destruct (unlines_ends_nl (header name)
    ["[Peer]"; "PublicKey = " ++ pub; "PresharedKey = " ++ psk;
     "AllowedIPs = " ++ ipv4 ++ "/32," ++ ipv6 ++ "/128"]) as [u Hu].
  rewrite Hu. exists (X ++ nlstr ++ u). rewrite !sapp_assoc. reflexivity.
Qed.

Lemma legacy_sync_store P T s : snd (Legacy.sync_wrapped P T s) = s.
Proof.
  unfold Legacy.sync_wrapped, Legacy.syncWireGuardConf, bind, read_cfg, lift, ret, fail; simpl.
  destruct (wg_quick_strip T _ _); simpl; [|reflexivity].
  destruct (wg_syncconf T _ _); reflexivity.
Qed.

Lemma legacy_addWireGuardClient_ok P T name ipv4 ipv6 s c s1 :
  Legacy.addWireGuardClient P T name ipv4 ipv6 s = (Ok c, s1) ->
  exists u, cfg s1 = u ++ nlstr.
Proof.
  unfold Legacy.addWireGuardClient, bind at 1, lift at 1.
  destruct (trim_out (wg_genkey T)) as [k|e]; [|discriminate]. simpl.
  unfold bind at 1, lift at 1.
  destruct (trim_out (wg_pubkey T k)) as [p|e]; [|discriminate]. simpl.
  unfold bind at 1, lift at 1.
  destruct (trim_out (wg_genpsk T)) as [q|e]; [|discriminate]. simpl.
  unfold bind at 1 2 3, write_file, append_cfg. simpl.
  match goal with |- context [Legacy.sync_wrapped P T ?st] =>
    pose proof (legacy_sync_store P T st) as Hs; destruct (Legacy.sync_wrapped P T st) as [[u|e] s2] end;
  [|discriminate].
  simpl in Hs. unfold ret. intros H; injection H as _ <-. subst s2. simpl.
  apply server_block_ends_nl.
Qed.

Lemma run_200 {A} (m : M A) (s : store) k r s1 :
  run m s k = (r, s1) -> status r = 200 ->
  exists a s', m s = (Ok a, s') /\ k a s' = (r, s1).
Proof.
  unfold run. destruct (m s) as [[a|e] s']; intros H Hs; [eauto|].
  injection H as <- _. discriminate.
Qed.

Lemma legacy_add_200_shape P T name ipv4 ipv6 s r s1 :
  Legacy.addUserHandler P T name ipv4 ipv6 s = (r, s1) -> status r = 200 ->
  exists u, cfg s1 = u ++ nlstr.
Proof.
  unfold Legacy.addUserHandler. intros H Hs.
  destruct (negb (valid_name name)); [injection H as <- _; discriminate|].
  destruct (run_200 _ _ _ _ _ H Hs) as (ex & s2 & Hex & H1).
  unfold Legacy.clientExists, bind, read_cfg, ret in Hex. injection Hex as <- <-.
  destruct (has_suffix _ _); [injection H1 as <- _; discriminate|].
  destruct (run_200 _ _ _ _ _ H1 Hs) as (a & s3 & _ & H2).
  destruct (run_200 _ _ _ _ _ H2 Hs) as (b & s4 & _ & H3).
  destruct (run_200 _ _ _ _ _ H3 Hs) as (c & s5 & Hadd & H4).
  injection H4 as _ <-. exact (legacy_addWireGuardClient_ok _ _ _ _ _ _ _ _ Hadd).
Qed.


Lemma span_len cls s : String.length (Alloc.span cls s).2 <= String.length s.
Proof.
  induction s as [|c s IH]; simpl; [lia|]. destruct (cls c); [|simpl; lia].
  destruct (Alloc.span cls s) as [g r]. simpl in *. lia.
Qed.

Lemma list_match_shorter bol s g1 g2 g3 g4 g5 r :
  list_match bol s = Some (g1, g2, g3, g4, g5, r) -> String.length r < String.length s.
Proof.
  unfold list_match. destruct (bol && has_prefix "### Client " s) eqn:E; [|discriminate].
  apply andb_true_iff in E as [_ E]. apply prefix_len in E. simpl in E.
  pose proof (span_len name_char (sdrop 11 s)) as L1.
  rewrite sdrop_len in L1. destruct (Alloc.span name_char (sdrop 11 s)) as [a1 r1]. cbn [snd] in L1.
  destruct (_ || _ || _); [discriminate|].
  pose proof (span_len b64_char (sdrop (String.length lit_peer) r1)) as L2.
  rewrite sdrop_len in L2. destruct (Alloc.span b64_char _) as [a2 r2]. cbn [snd] in L2.
  destruct (_ || _); [discriminate|].
  pose proof (span_len b64_char (sdrop (String.length lit_psk) r2)) as L3.
  rewrite sdrop_len in L3. destruct (Alloc.span b64_char _) as [a3 r3]. cbn [snd] in L3.
  destruct (_ || _); [discriminate|].
  pose proof (span_len not_comma (sdrop (String.length lit_allowed) r3)) as L4.
  rewrite sdrop_len in L4. destruct (Alloc.span not_comma _) as [a4 r4]. cbn [snd] in L4.
  destruct (_ || _); [discriminate|].
  destruct (String.eqb _ ""); [discriminate|].
  intros H. injection H as _ _ _ _ _ <-.
  pose proof (dropline_len (sdrop 1 r4)) as L5. rewrite sdrop_len in L5. change (String.length (dropline (sdrop 1 r4)) < String.length s). lia.
Qed.

Lemma list_fuel_enough (n m : nat) (bol : bool) (s : string) :
  String.length s < n -> String.length s < m ->
  list_scan_fuel n bol s = list_scan_fuel m bol s.
Proof.
  revert m bol s; induction n as [|n IH]; intros m bol s Hn Hm; [lia|].
  destruct m as [|m]; [lia|]. simpl.
  destruct (list_match bol s) as [[[[[[a b] c] d] e] r]|] eqn:E.
  - pose proof (list_match_shorter _ _ _ _ _ _ _ _ E). f_equal. apply IH; lia.
  - destruct s as [|c s]; [reflexivity|]. simpl in Hn, Hm. apply IH; lia.
Qed.

Lemma list_scan_from_eq (bol : bool) (s : string) :
  list_scan_from bol s =
  match list_match bol s with
  | Some (g1, g2, g3, g4, g5, rest) => (g1, g2, g3, g4, g5) :: list_scan_from false rest
  | None => match s with
            | EmptyString => []
            | String c s' => list_scan_from (ceq c nl) s'
            end
  end.
Proof.
  unfold list_scan_from at 1. cbn [list_scan_fuel].
  destruct (list_match bol s) as [[[[[[a b] c] d] e] r]|] eqn:E.
  - pose proof (list_match_shorter _ _ _ _ _ _ _ _ E). f_equal. apply list_fuel_enough; simpl; lia.
  - destruct s as [|c s]; [reflexivity|]. apply list_fuel_enough; simpl in *; lia.
Qed.

Lemma list_match_nl bol W : list_match bol (String nl W) = None.
Proof. unfold list_match. destruct bol; reflexivity. Qed.

Lemma list_scan_nl bol W : list_scan_from bol (String nl W) = list_scan_from true W.
Proof. rewrite list_scan_from_eq, list_match_nl. reflexivity. Qed.

Lemma sapp_nil_r (a : string) : a ++ "" = a.
Proof. induction a as [|c a IH]; [reflexivity|]. rewrite sapp_cons, IH. reflexivity. Qed.

Lemma list_scan_header_free (X W : string) (bol : bool) :
  header_free bol X = true -> (W = "" \/ exists W', W = String nl W') ->
  list_scan_from bol (X ++ W) = list_scan_from true W.
Proof.
  intros HX HW. revert bol HX. induction X as [|c X IH]; intros bol HX.
  - destruct HW as [->|[W' ->]]; [destruct bol; reflexivity|]. rewrite sapp_nil, !list_scan_nl. reflexivity.
  - cbn [header_free] in HX. apply andb_true_iff in HX as [H1 H2].
    rewrite sapp_cons, list_scan_from_eq.
    replace (list_match bol (String c (X ++ W))) with (@None (string * string * string * string * string * string)).
    + apply IH. exact H2.
    + unfold list_match. rewrite <- sapp_cons.
      destruct HW as [->|[W' ->]].
      * rewrite sapp_nil_r. apply negb_true_iff in H1. rewrite H1. reflexivity.
      * rewrite prefix_app_nl by reflexivity. apply negb_true_iff in H1. rewrite H1. reflexivity.
Qed.

Lemma span_app cls (g Z : string) :
  forallb cls (list_ascii_of_string g) = true ->
  (match Z with EmptyString => true | String c _ => negb (cls c) end) = true ->
  Alloc.span cls (g ++ Z) = (g, Z).
Proof.
  intros Hg HZ. induction g as [|c g IH].
  - destruct Z as [|d Z]; [reflexivity|]. simpl. apply negb_true_iff in HZ. rewrite HZ. reflexivity.
  - simpl in Hg. apply andb_true_iff in Hg as [Hc Hg]. rewrite sapp_cons. simpl. rewrite Hc, (IH Hg).
    reflexivity.
Qed.

Lemma forallb_not_comma (a : string) :
  has_char ","%char a = false -> forallb not_comma (list_ascii_of_string a) = true.
Proof.
  induction a as [|c a IH]; [reflexivity|]. intros H. cbn [has_char] in H.
  cbn [list_ascii_of_string forallb].
  apply orb_false_iff in H as [Hc H]. rewrite (IH H). unfold not_comma. rewrite Hc. reflexivity.
Qed.

Lemma list_ascii_app (a b : string) :
  list_ascii_of_string (a ++ b) = (list_ascii_of_string a ++ list_ascii_of_string b)%list.
Proof. induction a as [|c a IH]; [reflexivity|]. rewrite sapp_cons. simpl. rewrite IH. reflexivity. Qed.

Lemma entry_match (e : peer_entry) (Z : string) :
  entry_ok e ->
  list_match true (unlines [header (pe_name e); "[Peer]"; "PublicKey = " ++ pe_pub e;
                            "PresharedKey = " ++ pe_psk e;
                            "AllowedIPs = " ++ pe_ipv4 e ++ "/32," ++ pe_ipv6 e ++ "/128"] ++ Z) =
  Some (pe_name e, pe_pub e, pe_psk e, pe_ipv4 e ++ "/32", pe_ipv6 e ++ "/128", nlstr ++ Z).
Proof.
  intros (Hv & Hp & Hpb & Hq & Hqb & Ha & Hb).
  destruct e as [n p q a b]; cbn [pe_name pe_pub pe_psk pe_ipv4 pe_ipv6] in *.
  unfold valid_name in Hv. apply andb_true_iff in Hv as [Hv1 Hn].
  apply andb_true_iff in Hv1 as [Hv1 _]. apply Nat.leb_le in Hv1.
  assert (E0 : unlines [header n; "[Peer]"; "PublicKey = " ++ p; "PresharedKey = " ++ q;
                        "AllowedIPs = " ++ a ++ "/32," ++ b ++ "/128"] ++ Z =
               "### Client " ++ n ++ lit_peer ++ p ++ lit_psk ++ q ++ lit_allowed ++
               (a ++ "/32") ++ "," ++ (b ++ "/128") ++ nlstr ++ Z).
  { unfold unlines, header. cbn [fold_right]. rewrite !sapp_assoc. reflexivity. }
  rewrite E0. unfold list_match.
  rewrite prefix_app. cbn [andb].
  rewrite (sdrop_lit 11 "### Client ") by reflexivity.
  rewrite span_app by (exact Hn || reflexivity).
  destruct (String.eqb_spec n "") as [->|_]; [simpl in Hv1; lia|].
  rewrite prefix_app. cbn [orb negb]. rewrite sdrop_app.
  rewrite span_app by (exact Hpb || reflexivity).
  destruct (String.eqb_spec p "") as [|_]; [contradiction|].
  rewrite prefix_app. cbn [orb negb]. rewrite sdrop_app.
  rewrite span_app by (exact Hqb || reflexivity).
  destruct (String.eqb_spec q "") as [|_]; [contradiction|].
  rewrite prefix_app. cbn [orb negb]. rewrite sdrop_app.
  rewrite span_app; [|rewrite list_ascii_app, forallb_app, forallb_not_comma by exact Ha; reflexivity
                     |reflexivity].
  destruct (String.eqb_spec (a ++ "/32") "") as [E|_].
  { apply (f_equal String.length) in E. rewrite slength_app in E. simpl in E. lia. }
  rewrite prefix_app. cbn [orb negb]. rewrite (sdrop_lit 1 ",") by reflexivity.
  assert (Hb' : has_char nl (b ++ "/128") = false) by (rewrite has_char_app, Hb; reflexivity).
  destruct (takeline_app (b ++ "/128") (nlstr ++ Z) Hb' eq_refl) as [-> ->].
  destruct (String.eqb_spec (b ++ "/128") "") as [E|_].
  { apply (f_equal String.length) in E. rewrite slength_app in E. simpl in E. lia. }
  reflexivity.
Qed.

Lemma blocks_shape l : blocks l = "" \/ exists W, blocks l = String nl W.
Proof.
  destruct l as [|e l]; [left; reflexivity|right].
  exists (unlines [header (pe_name e); "[Peer]"; "PublicKey = " ++ pe_pub e;
                   "PresharedKey = " ++ pe_psk e;
                   "AllowedIPs = " ++ pe_ipv4 e ++ "/32," ++ pe_ipv6 e ++ "/128"] ++ blocks l).
  cbn [blocks fold_right]. unfold entry_block, server_block. rewrite sapp_assoc. reflexivity.
Qed.

Lemma blocks_scan l :
  Forall entry_ok l ->
  list_scan_from true (blocks l) =
  map (fun e => (pe_name e, pe_pub e, pe_psk e, pe_ipv4 e ++ "/32", pe_ipv6 e ++ "/128")) l.
Proof.
  induction l as [|e l IH]; intros Hl; [reflexivity|].
  apply Forall_cons in Hl as [He Hl].
  change (blocks (e :: l)) with (entry_block e ++ blocks l).
  unfold entry_block, server_block. rewrite sapp_assoc.
  change (nlstr ++ ?W) with (String nl W). rewrite list_scan_nl.
  rewrite list_scan_from_eq, (entry_match e _ He). cbn [map]. f_equal.
  change (nlstr ++ ?W) with (String nl W). rewrite list_scan_nl. exact (IH Hl).
Qed.

Lemma trim_suffix_app (a suf : string) : trim_suffix (a ++ suf) suf = a.
Proof.
  unfold trim_suffix. rewrite (has_suffix_app suf a suf (has_suffix_refl suf)).
  rewrite slength_app. replace (String.length a + String.length suf - String.length suf)
    with (String.length a) by lia. apply stake_app.
Qed.

Lemma legacy_list_blocks P X0 l s :
  header_free true X0 = true -> Forall entry_ok l -> cfg s = X0 ++ blocks l ->
  exists cl, legacy_listWireGuardClients P s = (Ok cl, s) /\
  map (fun c => (Name c, IPV4 c, IPV6 c)) cl = map (fun e => (pe_name e, pe_ipv4 e, pe_ipv6 e)) l.
Proof.
  intros HX Hl Hc. eexists. split; [reflexivity|].
  unfold bind, read_cfg. cbn beta iota. rewrite Hc.
  rewrite (list_scan_header_free X0 (blocks l) true HX (blocks_shape l)), (blocks_scan l Hl).
  rewrite !map_map. apply map_ext. intros e. cbn. rewrite !trim_suffix_app. reflexivity.
Qed.

Lemma legacy_add_no409_nl P T name ipv4 ipv6 s :
  (cfg s = "" \/ exists u, cfg s = u ++ nlstr) ->
  status (fst (Legacy.addUserHandler P T name ipv4 ipv6 s)) <> 409.
Proof.
  intros Hc. destruct (valid_name name) eqn:Hv.
  - apply legacy_add_not_409. apply header_no_suffix; [|exact Hc].
    apply valid_name_no_char; [reflexivity|exact Hv].
  - unfold Legacy.addUserHandler. rewrite Hv. simpl. lia.
Qed.

(** X3. [authMiddleware] with the token set by [loadEnv] lets a request
    through iff its [key] header equals the [API_TOKEN] variable when that
    is non-empty, or equals the default [your-secure-api-token] when the
    variable is unset or empty; a missing header is always rejected. *)
Theorem auth_loadEnv_accepts env key :
  authMiddleware (API_TOKEN (loadEnv env)) key = None <->
  (env "API_TOKEN" <> "" /\ key = env "API_TOKEN") \/
  (env "API_TOKEN" = "" /\ key = "your-secure-api-token").
Proof.
  unfold authMiddleware, loadEnv, getEnv. cbn [API_TOKEN].
  destruct (String.eqb key "") eqn:Ek.
  - apply String.eqb_eq in Ek. subst key. split; [discriminate|].
    intros [[H1 H2]|[_ H2]]; [congruence|discriminate].
  - apply String.eqb_neq in Ek.
    destruct (String.eqb (env "API_TOKEN") "") eqn:Ee.
    + apply String.eqb_eq in Ee. rewrite Ee.
      destruct (String.eqb key "your-secure-api-token") eqn:E; simpl.
      * apply String.eqb_eq in E. split; [intros _; right; auto|reflexivity].
      * apply String.eqb_neq in E. split; [discriminate|]. intros [[H _]|[_ H]]; congruence.
    + apply String.eqb_neq in Ee.
      destruct (String.eqb key (env "API_TOKEN")) eqn:E; simpl.
      * apply String.eqb_eq in E. split; [intros _; left; auto|reflexivity].
      * apply String.eqb_neq in E. split; [discriminate|]. intros [[_ H]|[H _]]; congruence.
Qed.

(** X4. The start and restart handlers answer 200 iff both their
    systemctl verb and [systemctl is-active] exit 0 on [wg-quick@<nic>];
    the stop handler answers 200 iff [systemctl stop] exits 0. *)
Theorem service_handlers_status P sc :
  (svc_status (wireGuardStartHandler P sc) = 200 <->
     (exists o, sc "start" (svc_unit P) = Exited0 o) /\
     (exists o, sc "is-active" (svc_unit P) = Exited0 o)) /\
  (svc_status (wireGuardRestartHandler P sc) = 200 <->
     (exists o, sc "restart" (svc_unit P) = Exited0 o) /\
     (exists o, sc "is-active" (svc_unit P) = Exited0 o)) /\
  (svc_status (wireGuardStopHandler P sc) = 200 <->
     exists o, sc "stop" (svc_unit P) = Exited0 o).
Proof.
  unfold wireGuardStartHandler, wireGuardRestartHandler, wireGuardStopHandler, svc_unit.
  split; [|split].
  - destruct (sc "start" _) as [o|e o er]; cbn.
    + destruct (sc "is-active" _) as [o2|e2 o2 er2]; cbn.
      * split; [intros _; eauto|reflexivity].
      * split; [discriminate|]. intros [_ [x Hx]]; discriminate.
    + split; [discriminate|]. intros [[x Hx] _]; discriminate.
  - destruct (sc "restart" _) as [o|e o er]; cbn.
    + destruct (sc "is-active" _) as [o2|e2 o2 er2]; cbn.
      * split; [intros _; eauto|reflexivity].
      * split; [discriminate|]. intros [_ [x Hx]]; discriminate.
    + split; [discriminate|]. intros [[x Hx] _]; discriminate.
  - destruct (sc "stop" _) as [o|e o er]; cbn.
    + split; [intros _; eauto|reflexivity].
    + split; [discriminate|]. intros [x Hx]; discriminate.
Qed.

(** X5. When [systemctl start] exits 0 but [systemctl is-active] fails,
    the start handler answers 500 "WireGuard service failed to start
    properly" and reports the output of the start command as its data,
    not the error of the failed check. *)
Theorem service_is_active_failure_data P sc o e o2 er :
  sc "start" (svc_unit P) = Exited0 o -> sc "is-active" (svc_unit P) = ExitErr e o2 er ->
  wireGuardStartHandler P sc =
    {| svc_status := 500; svc_message := "WireGuard service failed to start properly";
       svc_data := Some o |}.
Proof.
  intros H1 H2. unfold wireGuardStartHandler. unfold svc_unit in H1, H2.
  rewrite H1. cbn. rewrite H2. reflexivity.
Qed.

(** X6. [src/main.go]: on a configuration that is empty or ends with a
    newline, the existence check (a suffix test) finds no newline-free
    name: deleting such a name answers 404 and changes nothing, and no add
    request answers 409. *)
Theorem legacy_nl_terminated_delete_404 P T T' name name' ipv4 ipv6 s :
  (cfg s = "" \/ exists u, cfg s = u ++ nlstr) -> has_char nl name = false ->
  Legacy.deleteUserHandler P T name s = (reply 404 "Client not found", s) /\
  status (fst (Legacy.addUserHandler P T' name' ipv4 ipv6 s)) <> 409.
Proof.
  intros Hc Hn. split.
  - apply legacy_delete_absent, header_no_suffix; assumption.
  - apply legacy_add_no409_nl; exact Hc.
Qed.

(** X7. [src/main.go]: after an add request answered 200 the
    configuration ends with a newline, so deleting any newline-free name,
    the added one included, answers 404 without changing the stores, and
    adding the same name again never answers 409. *)
Theorem legacy_added_client_undeletable P T T' name ipv4 ipv6 s r s1 name' :
  Legacy.addUserHandler P T name ipv4 ipv6 s = (r, s1) -> status r = 200 ->
  has_char nl name' = false ->
  Legacy.deleteUserHandler P T' name' s1 = (reply 404 "Client not found", s1) /\
  (forall ipv4' ipv6', status (fst (Legacy.addUserHandler P T' name ipv4' ipv6' s1)) <> 409).
Proof.
  intros Ha Hs Hn. destruct (legacy_add_200_shape _ _ _ _ _ _ _ _ Ha Hs) as [u Hu].
  split.
  - apply legacy_delete_absent, header_no_suffix; [exact Hn|right; eauto].
  - intros a b. apply legacy_add_no409_nl. right; eauto.
Qed.

(** X8. [src/main.go] listing: on a configuration made of a text in
    which no line starts with ["### Client "] followed by peer blocks in
    the format [addWireGuardClient] appends (valid names, non-empty base64
    keys, an IPv4 field without comma, an IPv6 field without newline), the
    listing returns one client per block, in order, with the block's name
    and its two addresses without [/32] and [/128]. *)
Theorem legacy_list_after_adds P X0 l s :
  header_free true X0 = true -> Forall entry_ok l -> cfg s = X0 ++ blocks l ->
  exists cl, legacy_listWireGuardClients P s = (Ok cl, s) /\
  map (fun c => (Name c, IPV4 c, IPV6 c)) cl = map (fun e => (pe_name e, pe_ipv4 e, pe_ipv6 e)) l.
Proof. apply legacy_list_blocks. Qed.

Lemma blocks_app l1 l2 : blocks (l1 ++ l2) = blocks l1 ++ blocks l2.
Proof.
  induction l1 as [|e l1 IH]; [reflexivity|].
  cbn [app]. change (blocks (e :: ?l)) with (entry_block e ++ blocks l). rewrite IH, sapp_assoc. reflexivity.
Qed.

Lemma legacy_addWireGuardClient_cfg P T name ipv4 ipv6 s c s1 :
  Legacy.addWireGuardClient P T name ipv4 ipv6 s = (Ok c, s1) ->
  exists k p q, trim_out (wg_genkey T) = Ok k /\ trim_out (wg_pubkey T k) = Ok p /\
    trim_out (wg_genpsk T) = Ok q /\ cfg s1 = cfg s ++ server_block name p q ipv4 ipv6.
Proof.
  unfold Legacy.addWireGuardClient, bind at 1, lift at 1.
  destruct (trim_out (wg_genkey T)) as [k|e] eqn:Ek; [|discriminate]. simpl.
  unfold bind at 1, lift at 1.
  destruct (trim_out (wg_pubkey T k)) as [p|e] eqn:Ep; [|discriminate]. simpl.
  unfold bind at 1, lift at 1.
  destruct (trim_out (wg_genpsk T)) as [q|e] eqn:Eq; [|discriminate]. simpl.
  unfold bind at 1 2 3, write_file, append_cfg. simpl.
  match goal with |- context [Legacy.sync_wrapped P T ?st] =>
    pose proof (legacy_sync_store P T st) as Hs; destruct (Legacy.sync_wrapped P T st) as [[u|e] s2] end;
  [|discriminate].
  simpl in Hs. unfold ret. intros H; injection H as _ <-. subst s2.
  exists k, p, q. repeat split; first [assumption|reflexivity].
Qed.

Lemma legacy_add_200_data P T name ipv4r ipv6r s r s1 :
  Legacy.addUserHandler P T name ipv4r ipv6r s = (r, s1) -> status r = 200 ->
  exists ipv4 ipv6 conf k p q,
    data r = Some {| Name := name; IPV4 := ipv4; IPV6 := ipv6; Config := conf |} /\
    trim_out (wg_genkey T) = Ok k /\ trim_out (wg_pubkey T k) = Ok p /\
    trim_out (wg_genpsk T) = Ok q /\ cfg s1 = cfg s ++ server_block name p q ipv4 ipv6.
Proof.
  unfold Legacy.addUserHandler. intros H Hs.
  destruct (negb (valid_name name)); [injection H as <- _; discriminate|].
  destruct (run_200 _ _ _ _ _ H Hs) as (ex & s2 & Hex & H1).
  unfold Legacy.clientExists, bind, read_cfg, ret in Hex. injection Hex as <- <-.
  destruct (has_suffix _ _); [injection H1 as <- _; discriminate|].
  destruct (run_200 _ _ _ _ _ H1 Hs) as (a & s3 & Ha & H2).
  assert (s3 = s) as -> by (destruct (String.eqb ipv4r ""); injection Ha as _ <-; reflexivity).
  destruct (run_200 _ _ _ _ _ H2 Hs) as (b & s4 & Hb & H3).
  assert (s4 = s) as -> by (destruct (String.eqb ipv6r "" && _); injection Hb as _ <-; reflexivity).
  destruct (run_200 _ _ _ _ _ H3 Hs) as (c & s5 & Hadd & H4).
  injection H4 as <- <-.
  destruct (legacy_addWireGuardClient_cfg _ _ _ _ _ _ _ _ Hadd) as (k & p & q & Hk & Hp & Hq & Hc).
  exists a, b, c, k, p, q. repeat split; assumption.
Qed.

(** X9. [src/main.go] add then list: on such a configuration, after an
    add request answered 200 whose generated keys are non-empty base64 and
    whose addresses have no comma (IPv4) and no newline (IPv6), the
    listing returns the previous clients followed by the added name with
    the addresses of the response. *)
Theorem legacy_add_then_list P T name ipv4r ipv6r s r s1 X0 l privateKey publicKey preSharedKey c :
  header_free true X0 = true -> Forall entry_ok l -> cfg s = X0 ++ blocks l ->
  trim_out (wg_genkey T) = Ok privateKey ->
  trim_out (wg_pubkey T privateKey) = Ok publicKey ->
  trim_out (wg_genpsk T) = Ok preSharedKey ->
  publicKey <> "" -> forallb b64_char (list_ascii_of_string publicKey) = true ->
  preSharedKey <> "" -> forallb b64_char (list_ascii_of_string preSharedKey) = true ->
  Legacy.addUserHandler P T name ipv4r ipv6r s = (r, s1) -> status r = 200 -> data r = Some c ->
  has_char ","%char (IPV4 c) = false -> has_char nl (IPV6 c) = false ->
  exists cl, legacy_listWireGuardClients P s1 = (Ok cl, s1) /\
  map (fun c => (Name c, IPV4 c, IPV6 c)) cl =
    (map (fun e => (pe_name e, pe_ipv4 e, pe_ipv6 e)) l ++ [(name, IPV4 c, IPV6 c)])%list.
Proof.
  intros HX Hl Hc Hk Hp Hq Hp1 Hp2 Hq1 Hq2 Ha Hs Hd H4 H6.
  destruct (legacy_add_200_data _ _ _ _ _ _ _ _ Ha Hs)
    as (ipv4 & ipv6 & conf & k & p & q & Hd' & Hk' & Hp' & Hq' & Hc1).
  rewrite Hd in Hd'. injection Hd' as ->. cbn [IPV4 IPV6] in *.
  rewrite Hk in Hk'. injection Hk' as <-. rewrite Hp in Hp'. injection Hp' as <-.
  rewrite Hq in Hq'. injection Hq' as <-.
  set (e := {| pe_name := name; pe_pub := publicKey; pe_psk := preSharedKey;
               pe_ipv4 := ipv4; pe_ipv6 := ipv6 |}).
  assert (He : entry_ok e).
  { assert (Hv : valid_name name = true).
    { unfold Legacy.addUserHandler in Ha. destruct (valid_name name); [reflexivity|].
      injection Ha as <- _. discriminate. }
    unfold entry_ok; cbn. repeat split; assumption. }
  assert (Hc' : cfg s1 = X0 ++ blocks (l ++ [e])).
  { rewrite Hc1, Hc, blocks_app, sapp_assoc. cbn. rewrite sapp_nil_r. reflexivity. }
  assert (Hall : Forall entry_ok (l ++ [e])).
  { apply Forall_app. split; [exact Hl|]. constructor; [exact He|constructor]. }
  destruct (legacy_list_blocks P X0 (l ++ [e]) s1 HX Hall Hc')
    as [cl [Hcl Hm]].
  exists cl. split; [exact Hcl|]. rewrite Hm, map_app. reflexivity.
Qed.

(** X10. [src/main.go]: when [wg syncconf] fails during an add of a
    valid name that the existence check does not find, with both addresses
    supplied and the keys generated, the handler answers 500 with
    "failed to sync WireGuard config: " and the error, but keeps the
    written bundle file and the appended peer block. *)
Theorem legacy_add_sync_failure_kept P T name ipv4 ipv6 s k p q out e :
  valid_name name = true -> has_suffix (header name) (cfg s) = false ->
  ipv4 <> "" -> ipv6 <> "" ->
  trim_out (wg_genkey T) = Ok k -> trim_out (wg_pubkey T k) = Ok p -> trim_out (wg_genpsk T) = Ok q ->
  wg_quick_strip T (ServerWGNIC P) (cfg s ++ server_block name p q ipv4 ipv6) = Ok out ->
  wg_syncconf T (ServerWGNIC P) out = Err e ->
  Legacy.addUserHandler P T name ipv4 ipv6 s =
    (reply 500 ("failed to sync WireGuard config: " ++ e),
     {| cfg := cfg s ++ server_block name p q ipv4 ipv6;
        clients := <[standard_path P name :=
                       client_bundle P k ipv4 ipv6 q (endpoint_of (ServerPubIP P) (ServerPort P))]>
                     (clients s) |}).
Proof.
  intros Hv Hx H4 H6 Hk Hp Hq Hst Hsy.
  apply String.eqb_neq in H4. apply String.eqb_neq in H6.
  unfold Legacy.addUserHandler. rewrite Hv. cbn [negb].
  unfold run at 1, Legacy.clientExists, bind at 1, read_cfg, ret at 1. rewrite Hx.
  unfold run at 1. rewrite H4. unfold run at 1. rewrite H6. cbn [andb].
  unfold run, Legacy.addWireGuardClient, bind at 1, lift at 1. rewrite Hk. unfold ret at 1.
  unfold bind at 1, lift at 1. rewrite Hp. unfold ret at 1.
  unfold bind at 1, lift at 1. rewrite Hq. unfold ret at 1.
  unfold bind at 1 2 3, write_file, append_cfg. cbn [cfg clients].
  unfold Legacy.sync_wrapped, Legacy.syncWireGuardConf, bind, read_cfg, lift. cbn [cfg clients].
  rewrite Hst. unfold ret. rewrite Hsy. reflexivity.
Qed.

Lemma service_is_active_failure_data_witness :
  sc_ex "start" (svc_unit params_ex) = Exited0 "" /\
  sc_ex "is-active" (svc_unit params_ex) = ExitErr "exit status 3" "failed" "" /\
  wireGuardStartHandler params_ex sc_ex =
    {| svc_status := 500; svc_message := "WireGuard service failed to start properly";
       svc_data := Some "" |}.
Proof.
  split; [reflexivity|]. split; [reflexivity|].
  apply (service_is_active_failure_data params_ex sc_ex "" "exit status 3" "failed" ""); reflexivity.
Defined.

Lemma legacy_nl_terminated_delete_404_witness :
  Legacy.deleteUserHandler params_ex tools_ok "alice" (store_of cfg_alice) =
    (reply 404 "Client not found", store_of cfg_alice) /\
  status (fst (Legacy.addUserHandler params_ex tools_ok "alice" "" "" (store_of cfg_alice))) <> 409.
Proof.
  apply (legacy_nl_terminated_delete_404 params_ex tools_ok tools_ok "alice" "alice" "" ""
           (store_of cfg_alice)); [|reflexivity].
  right. exists (stake (String.length cfg_alice - 1) cfg_alice). vm_compute. reflexivity.
Defined.

Lemma legacy_added_client_undeletable_witness :
  status (fst legacy_add_ex) = 200 /\
  Legacy.deleteUserHandler params_ex tools_ok "carol" (snd legacy_add_ex) =
    (reply 404 "Client not found", snd legacy_add_ex) /\
  (forall ipv4' ipv6', status (fst (Legacy.addUserHandler params_ex tools_ok "carol" ipv4' ipv6'
                                      (snd legacy_add_ex))) <> 409).
Proof.
  split; [vm_compute; reflexivity|].
  apply (legacy_added_client_undeletable params_ex tools_ok tools_ok "carol" "10.8.0.3"
           "fd42:42:42::3" (store_of "") (fst legacy_add_ex) (snd legacy_add_ex) "carol");
    [vm_compute; reflexivity|vm_compute; reflexivity|reflexivity].
Defined.

Lemma legacy_list_after_adds_witness :
  header_free true cfg_iface_only = true /\ Forall entry_ok [entry_carol] /\
  exists cl, legacy_listWireGuardClients params_ex (store_of (cfg_iface_only ++ blocks [entry_carol])) =
             (Ok cl, store_of (cfg_iface_only ++ blocks [entry_carol])) /\
  map (fun c => (Name c, IPV4 c, IPV6 c)) cl = [("carol", "10.8.0.3", "fd42:42:42::3")].
Proof.
  assert (He : Forall entry_ok [entry_carol]).
  { constructor; [|constructor].
    unfold entry_ok; cbn. repeat split; try reflexivity; discriminate. }
  split; [reflexivity|]. split; [exact He|].
  apply (legacy_list_after_adds params_ex cfg_iface_only [entry_carol]
           (store_of (cfg_iface_only ++ blocks [entry_carol]))); [reflexivity|exact He|reflexivity].
Defined.

Lemma findClientName_after_add_witness :
  valid_name "carol" = true /\ "cpubkey" <> "" /\ has_char nl "cpubkey" = false /\
  clients (store_of cfg_alice) !! standard_path params_ex "carol" = None /\
  findClientNameByPublicKey "cpubkey"
    (snd (addWireGuardClient params_ex tools_ok "carol" "10.8.0.3" "fd42:42:42::3" (store_of cfg_alice)))
  = "carol".
Proof.
  split; [reflexivity|]. split; [discriminate|]. split; [reflexivity|]. split; [reflexivity|].
  apply (findClientName_after_add params_ex tools_ok "carol" "10.8.0.3" "fd42:42:42::3"
           (store_of cfg_alice) "cprivkey" "cpubkey" "cpsk");
    [reflexivity|discriminate|reflexivity|reflexivity|reflexivity|reflexivity|reflexivity].
Defined.

Lemma legacy_add_then_list_witness :
  status (fst legacy_add_iface) = 200 /\ data (fst legacy_add_iface) = Some client_carol /\
  exists cl, legacy_listWireGuardClients params_ex (snd legacy_add_iface) = (Ok cl, snd legacy_add_iface) /\
  map (fun c => (Name c, IPV4 c, IPV6 c)) cl = [("carol", "10.8.0.3", "fd42:42:42::3")].
Proof.
  split; [vm_compute; reflexivity|]. split; [vm_compute; reflexivity|].
  apply (legacy_add_then_list params_ex tools_ok "carol" "10.8.0.3" "fd42:42:42::3"
           (store_of cfg_iface_only) (fst legacy_add_iface) (snd legacy_add_iface)
           cfg_iface_only [] "cprivkey" "cpubkey" "cpsk" client_carol);
    first [reflexivity | discriminate | constructor | vm_compute; reflexivity].
Defined.

Lemma legacy_add_sync_failure_kept_witness :
  Legacy.addUserHandler params_ex tools_sync_fails "carol" "10.8.0.3" "fd42:42:42::3"
    (store_of cfg_iface_only) =
    (reply 500 ("failed to sync WireGuard config: " ++ "exit status 1, stderr: Line unrecognized"),
     {| cfg := cfg_iface_only ++ server_block "carol" "cpubkey" "cpsk" "10.8.0.3" "fd42:42:42::3";
        clients := <[standard_path params_ex "carol" :=
                       client_bundle params_ex "cprivkey" "10.8.0.3" "fd42:42:42::3" "cpsk"
                         (endpoint_of (ServerPubIP params_ex) (ServerPort params_ex))]> ∅ |}).
Proof.
  apply (legacy_add_sync_failure_kept params_ex tools_sync_fails "carol" "10.8.0.3" "fd42:42:42::3"
           (store_of cfg_iface_only) "cprivkey" "cpubkey" "cpsk"
           (cfg_iface_only ++ server_block "carol" "cpubkey" "cpsk" "10.8.0.3" "fd42:42:42::3")
           "exit status 1, stderr: Line unrecognized");
    first [reflexivity | discriminate | vm_compute; reflexivity].
Defined.


Lemma vis_space_len (c : ascii) (r : string) :
  Nat.leb 33 (nat_of_ascii c) && Nat.leb (nat_of_ascii c) 126 = true -> space_len (String c r) = 0.
Proof.
  intros H. apply andb_true_iff in H as [H1 H2]. apply Nat.leb_le in H1, H2.
  unfold space_len.
  destruct (Nat.leb 9 _ && Nat.leb _ 13) eqn:E1.
  { apply andb_true_iff in E1 as [_ E]. apply Nat.leb_le in E. lia. }
  destruct (Nat.eqb (nat_of_ascii c) 32) eqn:E2; [apply Nat.eqb_eq in E2; lia|].
  destruct (Nat.eqb (nat_of_ascii c) 194) eqn:E3; [apply Nat.eqb_eq in E3; lia|].
  destruct (Nat.eqb (nat_of_ascii c) 225) eqn:E4; [apply Nat.eqb_eq in E4; lia|].
  destruct (Nat.eqb (nat_of_ascii c) 226) eqn:E5; [apply Nat.eqb_eq in E5; lia|].
  destruct (Nat.eqb (nat_of_ascii c) 227) eqn:E6; [apply Nat.eqb_eq in E6; lia|].
  reflexivity.
Qed.

Lemma word_len (s : string) : String.length (word s).2 <= String.length s.
Proof.
  induction s as [|c s IH]; [simpl; lia|].
  cbn [word]. destruct (Nat.eqb (space_len (String c s)) 0); [|simpl; lia].
  destruct (word s) as [w t]. simpl in *. lia.
Qed.

Lemma fields_fuel_enough (n m : nat) (s : string) :
  String.length s < n -> String.length s < m -> fields_fuel n s = fields_fuel m s.
Proof.
  revert m s; induction n as [|n IH]; intros m s Hn Hm; [lia|].
  destruct m as [|m]; [lia|]. cbn [fields_fuel].
  destruct s as [|c r]; [reflexivity|].
  destruct (space_len (String c r)) as [|k] eqn:E.
  - cbn [word]. rewrite E. cbn [Nat.eqb].
    pose proof (word_len r) as L. destruct (word r) as [w t]. cbn [snd] in L.
    f_equal. apply IH; simpl in *; lia.
  - pose proof (sdrop_len (S k) (String c r)). apply IH; simpl in *; lia.
Qed.

Lemma fields_eq (s : string) :
  fields s =
  match s with
  | EmptyString => []
  | String _ _ =>
      match space_len s with
      | O => let '(w, t) := word s in w :: fields t
      | k => fields (sdrop k s)
      end
  end.
Proof.
  unfold fields at 1. cbn [fields_fuel].
  destruct s as [|c r]; [reflexivity|].
  destruct (space_len (String c r)) as [|k] eqn:E.
  - cbn [word]. rewrite E. cbn [Nat.eqb].
    pose proof (word_len r) as L. destruct (word r) as [w t]. cbn [snd] in L.
    f_equal. unfold fields. apply fields_fuel_enough; simpl in *; lia.
  - pose proof (sdrop_len (S k) (String c r)). unfold fields.
    apply fields_fuel_enough; simpl in *; lia.
Qed.

Lemma vis_word_cons (c : ascii) (w : string) :
  forallb (fun c => Nat.leb 33 (nat_of_ascii c) && Nat.leb (nat_of_ascii c) 126)
    (list_ascii_of_string (String c w)) = true ->
  Nat.leb 33 (nat_of_ascii c) && Nat.leb (nat_of_ascii c) 126 = true /\
  forallb (fun c => Nat.leb 33 (nat_of_ascii c) && Nat.leb (nat_of_ascii c) 126)
    (list_ascii_of_string w) = true.
Proof. cbn [list_ascii_of_string forallb]. apply andb_true_iff. Qed.

Lemma word_vis (w t : string) :
  forallb (fun c => Nat.leb 33 (nat_of_ascii c) && Nat.leb (nat_of_ascii c) 126)
    (list_ascii_of_string w) = true ->
  space_len t <> 0 \/ t = "" -> word (w ++ t) = (w, t).
Proof.
  intros Hw Ht. induction w as [|c w IH].
  - destruct t as [|d t]; [reflexivity|]. change ("" ++ String d t) with (String d t). cbn [word].
    destruct Ht as [Ht|Ht]; [|discriminate].
    destruct (Nat.eqb (space_len (String d t)) 0) eqn:E; [apply Nat.eqb_eq in E; congruence|].
    reflexivity.
  - apply vis_word_cons in Hw as [Hc Hw]. rewrite sapp_cons. cbn [word].
    rewrite (vis_space_len c _ Hc). cbn [Nat.eqb]. rewrite (IH Hw). reflexivity.
Qed.

Lemma fields_concat (ws : list string) :
  ws <> [] -> forallb vis_word ws = true -> fields (String.concat tabstr ws) = ws.
Proof.
  induction ws as [|w ws IH]; intros Hne Hv; [congruence|].
  cbn [forallb] in Hv. apply andb_true_iff in Hv as [Hw Hv].
  unfold vis_word in Hw. apply andb_true_iff in Hw as [Hw0 Hw].
  destruct w as [|c w']; [discriminate|].
  destruct ws as [|w2 ws].
  - cbn [String.concat]. rewrite fields_eq.
    apply vis_word_cons in Hw as Hw'. destruct Hw' as [Hc _].
    rewrite (vis_space_len c w' Hc).
    rewrite <- (sapp_nil_r (String c w')) at 1. rewrite (word_vis (String c w') "" Hw (or_intror eq_refl)).
    rewrite fields_eq. reflexivity.
  - change (String.concat tabstr (String c w' :: w2 :: ws))
      with (String c w' ++ tabstr ++ String.concat tabstr (w2 :: ws)).
    rewrite fields_eq. apply vis_word_cons in Hw as Hw'. destruct Hw' as [Hc _].
    rewrite sapp_cons, (vis_space_len c _ Hc), <- sapp_cons.
    assert (Ht : space_len (tabstr ++ String.concat tabstr (w2 :: ws)) <> 0) by (vm_compute; discriminate).
    rewrite (word_vis (String c w') _ Hw (or_introl Ht)).
    f_equal. rewrite fields_eq. cbn [tabstr String.append space_len sdrop].
    apply IH; [discriminate|exact Hv].
Qed.

Lemma split_aux_unlines (ls : list string) (k : nat) :
  Forall (fun l => has_char nl l = false) ls -> String.length (unlines ls) < k ->
  split_aux k (unlines ls) nlstr = (ls ++ [""])%list.
Proof.
  revert k; induction ls as [|l ls IH]; intros k Hl Hk.
  - destruct k as [|k]; [simpl in Hk; lia|]. reflexivity.
  - apply Forall_cons in Hl as [Hl1 Hl].
    destruct k as [|k]; [simpl in Hk; lia|].
    change (unlines (l :: ls)) with (l ++ String nl (unlines ls)) in *.
    cbn [split_aux]. change nlstr with (String nl EmptyString).
    rewrite (index_eq_char_app nl l _ Hl1). change (String nl EmptyString) with nlstr.
    rewrite stake_app. cbn [String.length]. rewrite sdrop_app_succ.
    rewrite slength_app in Hk. cbn [String.length] in Hk.
    rewrite (IH k Hl ltac:(lia)). reflexivity.
Qed.

Lemma vis_no_nl (w : string) :
  forallb (fun c => Nat.leb 33 (nat_of_ascii c) && Nat.leb (nat_of_ascii c) 126)
    (list_ascii_of_string w) = true -> has_char nl w = false.
Proof.
  induction w as [|c w IH]; intros H; [reflexivity|].
  apply vis_word_cons in H as [Hc H]. cbn [has_char]. rewrite (IH H), orb_false_r.
  apply andb_true_iff in Hc as [Hc _]. apply Nat.leb_le in Hc.
  destruct (ceq c nl) eqn:E; [|reflexivity].
  unfold ceq in E. apply Ascii.eqb_eq in E. subst c. vm_compute in Hc. lia.
Qed.

Lemma concat_no_nl (ws : list string) :
  forallb vis_word ws = true -> has_char nl (String.concat tabstr ws) = false.
Proof.
  induction ws as [|w ws IH]; intros Hv; [reflexivity|].
  cbn [forallb] in Hv. apply andb_true_iff in Hv as [Hw Hv].
  unfold vis_word in Hw. apply andb_true_iff in Hw as [_ Hw].
  destruct ws as [|w2 ws].
  - exact (vis_no_nl w Hw).
  - change (String.concat tabstr (w :: w2 :: ws)) with (w ++ tabstr ++ String.concat tabstr (w2 :: ws)).
    rewrite !has_char_app, (vis_no_nl w Hw), (IH Hv). reflexivity.
Qed.

Lemma concat_nonempty (w : string) (ws : list string) :
  vis_word w = true -> String.eqb (String.concat tabstr (w :: ws)) "" = false.
Proof.
  intros Hw. destruct w as [|c w]; [discriminate|].
  destruct ws as [|w2 ws]; reflexivity.
Qed.

Lemma unlines_nonempty (l : string) (ls : list string) : String.eqb (unlines (l :: ls)) "" = false.
Proof.
  change (unlines (l :: ls)) with (l ++ String nl (unlines ls)).
  destruct l; reflexivity.
Qed.

Lemma collect_peers_dump (ds : list dump_peer) :
  forallb dump_ok ds = true ->
  collect_peers (map dump_line ds ++ [""])%list =
  map (fun d => {| public_key := d_pub d; preshared_key := d_psk d; endpoint := d_endpoint d;
                   allowed_ips := d_allowed d; latest_handshake := d_handshake d;
                   transfer := Some (d_rx d, d_tx d); client_name := None |}) ds.
Proof.
  induction ds as [|d ds IH]; intros Hd; [reflexivity|].
  cbn [forallb] in Hd. apply andb_true_iff in Hd as [Hd Hds].
  cbn [map app collect_peers]. unfold dump_line.
  assert (Hw : vis_word (d_pub d) = true).
  { unfold dump_ok in Hd. cbn [forallb] in Hd. apply andb_true_iff in Hd as [H _]. exact H. }
  rewrite (concat_nonempty _ _ Hw).
  unfold dump_ok in Hd. rewrite fields_concat by first [discriminate | exact Hd].
  cbn [peer_of_fields]. f_equal. exact (IH Hds).
Qed.

Lemma name_peer_dump (s : store) (d : dump_peer) :
  vis_word (d_pub d) = true ->
  name_peer s {| public_key := d_pub d; preshared_key := d_psk d; endpoint := d_endpoint d;
                 allowed_ips := d_allowed d; latest_handshake := d_handshake d;
                 transfer := Some (d_rx d, d_tx d); client_name := None |} =
  let n := findClientNameByPublicKey (d_pub d) s in
  {| public_key := d_pub d; preshared_key := d_psk d; endpoint := d_endpoint d;
     allowed_ips := d_allowed d; latest_handshake := d_handshake d;
     transfer := Some (d_rx d, d_tx d);
     client_name := if String.eqb n "" then None else Some n |}.
Proof.
  intros Hw. unfold name_peer. cbn [public_key].
  destruct (d_pub d) as [|c w] eqn:E; [discriminate|]. cbn [String.eqb].
  destruct (String.eqb (findClientNameByPublicKey (String c w) s) ""); reflexivity.
Qed.

(** X2. The [peers] entry of the status handler: when
    [wg show <nic> dump] exits 0 with its interface line (four fields)
    followed by one line of eight tab-separated printable fields per peer,
    the entry lists exactly those peers, in order, with their first seven
    fields, and with [client_name] set to the name
    [findClientNameByPublicKey] finds for the public key when it finds
    one. *)
Theorem status_peers_of_dump (iface : list string) (ds : list dump_peer) (s : store) :
  length iface = 4 -> forallb vis_word iface = true -> forallb dump_ok ds = true ->
  status_peers (Exited0 (unlines (String.concat tabstr iface :: map dump_line ds))) s =
  map (fun d =>
         let n := findClientNameByPublicKey (d_pub d) s in
         {| public_key := d_pub d; preshared_key := d_psk d; endpoint := d_endpoint d;
            allowed_ips := d_allowed d; latest_handshake := d_handshake d;
            transfer := Some (d_rx d, d_tx d);
            client_name := if String.eqb n "" then None else Some n |}) ds.
Proof.
  intros Hlen Hi Hd.
  destruct iface as [|i0 iface]; [discriminate|].
  unfold status_peers, parse_peers, executeCommand. rewrite String.eqb_refl. cbn [andb].
  rewrite unlines_nonempty. cbn [negb andb].
  assert (Hnl : Forall (fun l => has_char nl l = false)
                       (String.concat tabstr (i0 :: iface) :: map dump_line ds)).
  { constructor; [exact (concat_no_nl _ Hi)|].
    apply Forall_forall. intros l Hl. apply list_elem_of_In, in_map_iff in Hl as [d [<- Hdin]].
    unfold dump_line. apply concat_no_nl.
    rewrite forallb_forall in Hd. exact (Hd d Hdin). }
  unfold split. rewrite split_aux_unlines; [|exact Hnl|lia].
  cbn [app collect_peers].
  assert (Hi0 : vis_word i0 = true) by (cbn [forallb] in Hi; apply andb_true_iff in Hi as [H _]; exact H).
  rewrite (concat_nonempty _ _ Hi0). rewrite fields_concat by first [discriminate | exact Hi].
  destruct iface as [|a [|b [|c [|e iface]]]]; try discriminate.
  cbn [peer_of_fields].
  rewrite (collect_peers_dump ds Hd), map_map. apply map_ext_in.
  intros d Hdin. apply name_peer_dump.
  rewrite forallb_forall in Hd. pose proof (Hd d Hdin) as H.
  unfold dump_ok in H. cbn [forallb] in H. apply andb_true_iff in H as [H _]. exact H.
Qed.

Lemma status_peers_of_dump_witness :
  length ["srvpriv"; "srvpub"; "51820"; "off"] = 4 /\
  forallb vis_word ["srvpriv"; "srvpub"; "51820"; "off"] = true /\
  forallb dump_ok [dump_carol] = true /\
  status_peers (Exited0 (unlines (String.concat tabstr ["srvpriv"; "srvpub"; "51820"; "off"]
                                  :: map dump_line [dump_carol]))) store_carol =
  [{| public_key := "cpubkey"; preshared_key := "cpsk"; endpoint := "(none)";
      allowed_ips := "10.8.0.3/32,fd42:42:42::3/128"; latest_handshake := "0";
      transfer := Some ("0", "0"); client_name := Some "carol" |}].
Proof.
  split; [reflexivity|]. split; [vm_compute; reflexivity|]. split; [vm_compute; reflexivity|].
  rewrite (status_peers_of_dump ["srvpriv"; "srvpub"; "51820"; "off"] [dump_carol] store_carol);
    [vm_compute; reflexivity|reflexivity|vm_compute; reflexivity|vm_compute; reflexivity].
Defined.
